(** * The connector publish pipeline (ci_connector_ops/pipelines/publish.py)

    A shallow embedding of the publish steps and of the pipeline that
    sequences them, with the properties of the publish workflow stated
    and proved over it.

    Python values are modelled as they are at run time: strings as byte
    strings, decoded JSON documents as a tree of dynamically typed values,
    exceptions as an explicit result type, and the calls to remote services
    (object storage, the registry, the container engine) as a log of events
    written in the order the calls are made. *)

From Stdlib Require Import String Ascii ZArith List Bool Lia.
From stdpp Require Import base option list strings gmap pretty.

Local Open Scope string_scope.
Local Open Scope list_scope.

(** ** The Python run time *)

Module Py.

(** *** Strings

  A Python [str] is embedded as the byte string of its UTF-8 encoding. The
  operations the source uses ([in], [replace] and [split] with an ASCII
  pattern, [+], [==]) act on the encoding exactly as on the text. *)

(** [prefix in s], at the head of [s]. *)
Fixpoint str_startswith (p s : string) : bool :=
match p, s with
| EmptyString, _ => true
| String a p', String b s' => if Ascii.eqb a b then str_startswith p' s' else false
| String _ _, EmptyString => false
end.

(** [needle in hay]. *)
Fixpoint str_contains (needle hay : string) : bool :=
str_startswith needle hay ||
match hay with
| EmptyString => false
| String _ hay' => str_contains needle hay'
end.

(** [s.replace(old, new)] for a pattern [old] of one character. *)
Fixpoint str_replace (old : ascii) (new : string) (s : string) : string :=
match s with
| EmptyString => EmptyString
| String c s' =>
    if Ascii.eqb c old then new +:+ str_replace old new s'
    else String c (str_replace old new s')
end.

(** [s.split(sep)] for a separator of one character: the fields between the
  separators, so that the result is never empty. *)
Fixpoint str_split_acc (sep : ascii) (field : string) (s : string) : list string :=
match s with
| EmptyString => [String.rev field]
| String c s' =>
    if Ascii.eqb c sep then String.rev field :: str_split_acc sep EmptyString s'
    else str_split_acc sep (String c field) s'
end.

Definition str_split (sep : ascii) (s : string) : list string :=
str_split_acc sep EmptyString s.

Definition newline : ascii := "010"%char.

(** *** Exceptions *)

Inductive exn : Type :=
| KeyError (key : string)
| TypeError (msg : string)
| AttributeError (msg : string)
| IndexError (msg : string)
| JSONDecodeError
| InvalidSpecOutputError (msg : string)
| QueryError (msg : string).

Inductive exn_class : Type :=
| CKeyError | CTypeError | CAttributeError | CIndexError
| CJSONDecodeError | CInvalidSpecOutputError | CQueryError.

Definition class_of (e : exn) : exn_class :=
match e with
| KeyError _ => CKeyError
| TypeError _ => CTypeError
| AttributeError _ => CAttributeError
| IndexError _ => CIndexError
| JSONDecodeError => CJSONDecodeError
| InvalidSpecOutputError _ => CInvalidSpecOutputError
| QueryError _ => CQueryError
end.

#[global] Instance exn_class_eq_dec : EqDecision exn_class.
Proof. solve_decision. Defined.

(** [str(e)] *)
Definition exn_str (e : exn) : string :=
match e with
| KeyError k => "'" +:+ k +:+ "'"
| TypeError m | AttributeError m | IndexError m
| InvalidSpecOutputError m | QueryError m => m
| JSONDecodeError => "JSONDecodeError"
end.

(** The outcome of evaluating an expression: a value, or a raised
  exception. *)
Inductive result (A : Type) : Type :=
| Ok (a : A)
| Raise (e : exn).
Arguments Ok {A} a.
Arguments Raise {A} e.

#[global] Instance result_ret : MRet result := fun _ a => Ok a.
#[global] Instance result_bind : MBind result := fun _ _ f m =>
match m with
| Ok a => f a
| Raise e => Raise e
end.

(** [try: body / except classes: handler] *)
Definition try_except {A} (body : result A) (classes : list exn_class)
  (handler : exn → result A) : result A :=
match body with
| Ok a => Ok a
| Raise e => if bool_decide (class_of e ∈ classes) then handler e else Raise e
end.

(** [for x in xs: body x], where the body either goes on to the next
  element ([Ok None]), returns from the enclosing function ([Ok (Some r)])
  or raises. *)
Fixpoint for_each {A R} (xs : list A) (body : A → result (option R))
  : result (option R) :=
match xs with
| [] => Ok None
| x :: xs' =>
    match body x with
    | Ok None => for_each xs' body
    | Ok (Some r) => Ok (Some r)
    | Raise e => Raise e
    end
end.

(** [l[0]] *)
Definition item0 {A} (l : list A) : result A :=
match l with
| x :: _ => Ok x
| [] => Raise (IndexError "list index out of range")
end.

(** [l[-1]] *)
Definition item_last {A} (l : list A) : result A :=
match List.last (map Some l) None with
| Some x => Ok x
| None => Raise (IndexError "list index out of range")
end.

(** [l.append(x)] *)
Definition list_append {A} (l : list A) (x : A) : list A := l ++ [x].

(** [l.append(x, y)]: [list.append] takes exactly one argument, so that a
  call with two raises [TypeError] once its arguments are evaluated, and
  [l] is left as it was. *)
Definition append_two_arguments {A B C} (l : list A) (x : B) (y : C)
  : result (list A) :=
Raise (TypeError "list.append() takes exactly one argument (2 given)").

(** *** Decoded JSON documents

  The values [json.loads] builds: [dict] (in insertion order, keys
  unique), [list], [str], [int], [float], [bool] and [None]. A float is
  kept as its [repr]. *)
#[warning="-register-all"]
Inductive json : Type :=
| JNull
| JBool (b : bool)
| JInt (z : Z)
| JFloat (repr : string)
| JStr (s : string)
| JArr (items : list json)
| JObj (members : list (string * json)).

(** [type(v).__name__], as Python prints it in its error messages. *)
Definition type_name (v : json) : string :=
match v with
| JNull => "NoneType"
| JBool _ => "bool"
| JInt _ => "int"
| JFloat _ => "float"
| JStr _ => "str"
| JArr _ => "list"
| JObj _ => "dict"
end.

Fixpoint dict_lookup (k : string) (d : list (string * json)) : option json :=
match d with
| [] => None
| (k', v) :: d' => if String.eqb k k' then Some v else dict_lookup k d'
end.

(** [v[k]] for a string [k]. *)
Definition getitem (v : json) (k : string) : result json :=
match v with
| JObj d =>
    match dict_lookup k d with
    | Some x => Ok x
    | None => Raise (KeyError k)
    end
| JArr _ => Raise (TypeError "list indices must be integers or slices, not str")
| JStr _ => Raise (TypeError "string indices must be integers")
| _ => Raise (TypeError ("'" +:+ type_name v +:+ "' object is not subscriptable"))
end.

(** [v.get(k, dflt)] *)
Definition dict_get (v : json) (k : string) (dflt : json) : result json :=
match v with
| JObj d => Ok (default dflt (dict_lookup k d))
| _ => Raise (AttributeError
                ("'" +:+ type_name v +:+ "' object has no attribute 'get'"))
end.

(** [for x in v] over a decoded value: the elements of a list, the keys of
  a dict, the characters of a string. *)
Definition iterate (v : json) : result (list json) :=
match v with
| JArr items => Ok items
| JObj d => Ok (map (λ kv, JStr (fst kv)) d)
| JStr s => Ok (map (λ c, JStr (String c EmptyString)) (list_ascii_of_string s))
| _ => Raise (TypeError ("'" +:+ type_name v +:+ "' object is not iterable"))
end.

(** *** The standard library

  The functions of Python's own library that the pipeline calls. They are
  not code of the pipeline: what is proved about a step holds for every
  behaviour of theirs.
  - [json_loads s] is [json.loads(s)], [None] when it raises
    [json.JSONDecodeError];
  - [json_dumps v] is [json.dumps(v)];
  - [py_str v] is [str(v)], used for the values other than strings that
    end up inside an f-string.

  A text on which [json.loads] neither returns nor raises
  [json.JSONDecodeError] ([RecursionError] for a nesting too deep,
  [ValueError] for an integer of too many digits) has no place here: such
  an error is caught by no handler of the steps and leaves them. The
  properties below that depend on the decoder say in their hypotheses what
  it does with the text: it returns a value, or it raises
  [json.JSONDecodeError]. *)
Class Library : Type := {
json_loads : string → option json;
json_dumps : json → string;
py_str : json → string;
}.

Section library.
Context `{Library}.

Definition loads (s : string) : result json :=
  match json_loads s with
  | Some v => Ok v
  | None => Raise JSONDecodeError
  end.

(** What [f"{v}"] puts in the string. *)
Definition fstr (v : json) : string :=
  match v with
  | JStr s => s
  | _ => py_str v
  end.

(** [v == s] for a string [s] *)
Definition eq_str (v : json) (s : string) : bool :=
  match v with
  | JStr s' => String.eqb s' s
  | _ => false
  end.
End library.

End Py.

Import Py.

(** ** The data model of the pipelines (bases.py, contexts.py) *)

Inductive StepStatus : Type := SUCCESS | FAILURE | SKIPPED.

#[global] Instance StepStatus_eq_dec : EqDecision StepStatus.
Proof. solve_decision. Defined.

(** The steps a result can refer to. [BuildConnectorImage] is the build of
    one platform, run by [builds.run_connector_build]. *)
Inductive Step : Type :=
| MetadataValidationStep
| MetadataUploadStep
| CheckConnectorImageDoesNotExistStep
| BuildConnectorForPublishStep
| PushConnectorImageToRegistryStep
| UploadSpecToCacheStep
| BuildConnectorImageStep (platform : string).

(** A dagger container and a dagger file, as the handles the engine gives. *)
Inductive Container : Type := ContainerId (id : string).

Record File : Type := { file_name : string; file_contents : string }.

(** The value of [output_artifact], which is untyped in the source. *)
#[warning="-register-all"]
Inductive artifact : Type :=
| NoArtifact
| ContainerArtifact (c : Container)
| ListArtifact (items : list artifact).

(** [StepResult]; the time stamp of its creation is left out. *)
Record StepResult : Type := {
  step : Step;
  status : StepStatus;
  stdout : option string;
  stderr : option string;
  output_artifact : artifact;
}.

Record ConnectorReport : Type := {
  name : string;
  steps_results : list StepResult;
}.

(** The attributes of [PublishConnectorContext] that publish.py reads. *)
Record PublishConnectorContext : Type := {
  docker_image_name : string;
  docker_image_from_metadata : string;
  metadata : gmap string json;
  pre_release : bool;
  metadata_path : string;
  spec_cache_bucket_name : string;
  spec_cache_gcs_credentials_secret : string;
}.

(** ** CheckConnectorImageDoesNotExist *)

Module CheckConnectorImageDoesNotExist.
Section step.
Context {library : Library}.
(** [builds.BUILD_PLATFORMS] *)
Variable BUILD_PLATFORMS : list string.
Variable context : PublishConnectorContext.

Definition self : Step := CheckConnectorImageDoesNotExistStep.

(** [f"{manifest['platform']['os']}/{manifest['platform']['architecture']}"] *)
Definition platform_of (manifest : json) : result string :=
  platform ← getitem manifest "platform";
  os ← getitem platform "os";
  platform' ← getitem manifest "platform";
  architecture ← getitem platform' "architecture";
  mret (fstr os +:+ "/" +:+ fstr architecture).

(** The set comprehension over [manifests]. *)
Definition available_platforms_of (manifests : json) : result (gset string) :=
  items ← iterate manifests;
  names ← mapM platform_of items;
  mret (list_to_set names).

(** [_run], from the two streams of [docker manifest inspect ... || true]. *)
Definition _run (manifest_inspect_stderr manifest_inspect_stdout : string)
    : result StepResult :=
  if str_contains "no such manifest" manifest_inspect_stderr then
    Ok {| step := self; status := SUCCESS;
          stdout := Some ("No manifest found for "
                          +:+ docker_image_from_metadata context +:+ ".");
          stderr := None; output_artifact := NoArtifact |}
  else
    try_except
      (document ← loads (str_replace newline EmptyString manifest_inspect_stdout);
       manifests ← dict_get document "manifests" (JArr []);
       available_platforms ← available_platforms_of manifests;
       if bool_decide (list_to_set BUILD_PLATFORMS ⊆ available_platforms) then
         Ok {| step := self; status := SKIPPED; stdout := None;
               stderr := Some (docker_image_from_metadata context
                               +:+ " already exists.");
               output_artifact := NoArtifact |}
       else
         Ok {| step := self; status := SUCCESS;
               stdout := Some ("No all manifests found for "
                               +:+ docker_image_from_metadata context +:+ ".");
               stderr := None; output_artifact := NoArtifact |})
      [CJSONDecodeError]
      (λ _, Ok {| step := self; status := FAILURE;
                  stdout := Some manifest_inspect_stdout;
                  stderr := Some manifest_inspect_stderr;
                  output_artifact := NoArtifact |}).
End step.
End CheckConnectorImageDoesNotExist.

(** ** Remote calls

    The calls a step makes to the outside are written to a log, in the order
    they are made; what the outside answers is given by [Services]. *)

Inductive event : Type :=
| UploadToGcs (file : File) (key bucket credentials : string)
| Publish (container : Container) (address : string)
    (platform_variants : list Container)
| ExecSpec (connector : Container) (deployment_mode : string)
| RunSteps (steps : list (Step * list artifact)) (results : list StepResult)
| Run (s : Step).

(** - [upload_to_gcs file key bucket credentials] is the exit code and the
      two streams of [remote_storage.upload_to_gcs];
    - [publish container address platform_variants] is the reference
      [Container.publish] returns, or the [QueryError] it raises;
    - [spec_stdout connector deployment_mode] is the standard output of the
      connector's [spec] command, or the error of the engine. *)
Class Services : Type := {
  upload_to_gcs : File → string → string → string → Z * string * string;
  publish : Container → string → list Container → result string;
  spec_stdout : Container → string → result string;
}.

Definition io (A : Type) : Type := list event * result A.

#[global] Instance io_ret : MRet io := λ _ a, ([], Ok a).
#[global] Instance io_bind : MBind io := λ _ _ f m,
  match m with
  | (log, Ok a) => let '(log', r) := f a in (log ++ log', r)
  | (log, Raise e) => (log, Raise e)
  end.

Definition lift {A} (r : result A) : io A := ([], r).
Definition call {A} (e : event) (answer : A) : io A := ([e], Ok answer).
Definition call_result {A} (e : event) (answer : result A) : io A := ([e], answer).

Definition io_try_except {A} (body : io A) (classes : list exn_class)
    (handler : exn → io A) : io A :=
  match body with
  | (log, Ok a) => (log, Ok a)
  | (log, Raise e) =>
      if bool_decide (class_of e ∈ classes)
      then let '(log', r) := handler e in (log ++ log', r)
      else (log, Raise e)
  end.

Fixpoint io_for_each {A R} (xs : list A) (body : A → io (option R))
    : io (option R) :=
  match xs with
  | [] => mret None
  | x :: xs' =>
      r ← body x;
      match r with
      | Some r => mret (Some r)
      | None => io_for_each xs' body
      end
  end.

Definition log_of {A} (m : io A) : list event := fst m.
Definition outcome {A} (m : io A) : result A := snd m.

(** ** BuildConnectorForPublish *)

Module BuildConnectorForPublish.

Definition self : Step := BuildConnectorForPublishStep.

(** [_run], from the dict [builds.run_connector_build] returns: its items
    in the order of insertion, which is the order [.values()] iterates
    in. *)
Definition _run (run_connector_build : list (string * StepResult)) : StepResult :=
  let build_connectors_results := map snd run_connector_build in
  match find (λ build_result, bool_decide (status build_result ≠ SUCCESS))
             build_connectors_results with
  | Some build_result => build_result
  | None =>
      let built_connectors_platform_variants :=
        map output_artifact build_connectors_results in
      {| step := self; status := SUCCESS; stdout := None; stderr := None;
         output_artifact := ListArtifact built_connectors_platform_variants |}
  end.

End BuildConnectorForPublish.

(** ** PushConnectorImageToRegistry *)

Module PushConnectorImageToRegistry.
Section step.
Context {library : Library} {services : Services}.
Variable context : PublishConnectorContext.

Definition self : Step := PushConnectorImageToRegistryStep.

Definition latest_docker_image_name : result string :=
  match metadata context !! "dockerRepository" with
  | Some repository => Ok (fstr repository +:+ ":latest")
  | None => Raise (KeyError "dockerRepository")
  end.

(** [await container.publish(address, platform_variants=...)] *)
Definition do_publish (container : Container) (address : string)
    (platform_variants : list Container) : io string :=
  call_result (Publish container address platform_variants)
              (publish container address platform_variants).

Definition _run (built_containers_per_platform : list Container) : io StepResult :=
  io_try_except
    (primary ← lift (item0 built_containers_per_platform);
     image_ref ← do_publish primary ("docker.io/" +:+ docker_image_name context)
                   (tail built_containers_per_platform);
     image_ref ←
       (if negb (pre_release context) then
          primary ← lift (item0 built_containers_per_platform);
          latest ← lift latest_docker_image_name;
          do_publish primary ("docker.io/" +:+ latest)
            (tail built_containers_per_platform)
        else mret image_ref);
     mret {| step := self; status := SUCCESS;
             stdout := Some ("Published " +:+ image_ref); stderr := None;
             output_artifact := NoArtifact |})
    [CQueryError]
    (λ e, mret {| step := self; status := FAILURE; stdout := None;
                  stderr := Some (exn_str e); output_artifact := NoArtifact |}).
End step.
End PushConnectorImageToRegistry.

(** ** UploadSpecToCache *)

Module UploadSpecToCache.
Section step.
Context {library : Library} {services : Services}.
Variable context : PublishConnectorContext.

Definition self : Step := UploadSpecToCacheStep.

Definition default_spec_file_name : string := "spec.json".
Definition cloud_spec_file_name : string := "spec.cloud.json".

Definition spec_key_prefix : string :=
  "specs/" +:+ str_replace ":" "/" (docker_image_name context).

Definition cloud_spec_key : string :=
  spec_key_prefix +:+ "/" +:+ cloud_spec_file_name.

Definition oss_spec_key : string :=
  spec_key_prefix +:+ "/" +:+ default_spec_file_name.

(** The body of the loop of [_parse_spec_output]: [Some] is its [return],
    [None] its [continue] or the end of the body. *)
Definition parse_line (line : string) : result (option string) :=
  try_except
    (parsed_json ← loads line;
     type ← getitem parsed_json "type";
     if eq_str type "SPEC" then Ok (Some (json_dumps parsed_json))
     else Ok None)
    [CJSONDecodeError; CKeyError]
    (λ _, Ok None).

Definition _parse_spec_output (spec_output : string) : result string :=
  found ← for_each (str_split newline spec_output) parse_line;
  match found with
  | Some spec => Ok spec
  | None => Raise (InvalidSpecOutputError
                     "Could not parse the output of the spec command.")
  end.

Definition _get_connector_spec (connector : Container) (deployment_mode : string)
    : io string :=
  spec_output ← call_result (ExecSpec connector deployment_mode)
                            (spec_stdout connector deployment_mode);
  lift (_parse_spec_output spec_output).

Definition _get_spec_as_file (spec : string) (name : string) : File :=
  {| file_name := name; file_contents := spec |}.

(** One turn of the upload loop. *)
Definition upload (spec : string * File) : io (option StepResult) :=
  let '(key, file) := spec in
  '(exit_code, out, err) ←
    call (UploadToGcs file key (spec_cache_bucket_name context)
            (spec_cache_gcs_credentials_secret context))
         (upload_to_gcs file key (spec_cache_bucket_name context)
            (spec_cache_gcs_credentials_secret context));
  if bool_decide (exit_code ≠ 0%Z) then
    mret (Some {| step := self; status := FAILURE; stdout := Some out;
                  stderr := Some err; output_artifact := NoArtifact |})
  else mret None.

Definition _run (built_connector : Container) : io StepResult :=
  oss_spec ← _get_connector_spec built_connector "OSS";
  cloud_spec ← _get_connector_spec built_connector "CLOUD";
  let specs_to_uploads :=
    [(oss_spec_key, _get_spec_as_file oss_spec "spec_to_cache.json")] in
  specs_to_uploads ←
    (if negb (String.eqb oss_spec cloud_spec) then
       lift (append_two_arguments specs_to_uploads cloud_spec_key
               (_get_spec_as_file cloud_spec "cloud_spec_to_cache.json"))
     else mret specs_to_uploads);
  failed ← io_for_each specs_to_uploads upload;
  match failed with
  | Some failure => mret failure
  | None => mret {| step := self; status := SUCCESS; stdout := None;
                    stderr := None; output_artifact := NoArtifact |}
  end.
End step.
End UploadSpecToCache.

(** ** The pipeline *)

(** The helpers of the pipelines package that the pipeline calls:
    - [run_steps steps results] is what [actions.run_steps] returns for the
      steps, each with the arguments of its run, and the results so far;
    - [run s] is what [Step.run] returns for the step [s].

    They are taken where they return: a run of the pipeline in which one of
    these calls raises is not described, and nothing below says that the
    pipeline cannot raise. *)
Class Runner : Type := {
  run_steps : list (Step * list artifact) → list StepResult → list StepResult;
  run : Step → StepResult;
}.

(** [artifact[0]] for the untyped artifact of the build. *)
Definition artifact_item0 (a : artifact) : result artifact :=
  match a with
  | ListArtifact items => item0 items
  | NoArtifact => Raise (TypeError "'NoneType' object is not subscriptable")
  | ContainerArtifact _ => Raise (TypeError "'Container' object is not subscriptable")
  end.

Section pipeline.
Context {runner : Runner}.

Definition do_run_steps (steps : list (Step * list artifact))
    (results : list StepResult) : io (list StepResult) :=
  call (RunSteps steps results) (run_steps steps results).

Definition do_run (s : Step) : io StepResult := call (Run s) (run s).

Definition report (results : list StepResult) : ConnectorReport :=
  {| name := "PUBLISH RESULTS"; steps_results := results |}.

Definition steps_before_ready_to_publish : list (Step * list artifact) :=
  [(MetadataValidationStep, []); (CheckConnectorImageDoesNotExistStep, [])].

(** The body of [run_connector_publish_pipeline] inside [async with
    context]: the calls it makes, and the report it assigns to
    [context.report] and returns, or the error its own indexing raises.
    What the semaphore and the context do when they are entered and left
    (contexts.py), and so what becomes of an error raised in the body, is
    outside. *)
Definition run_connector_publish_pipeline : io ConnectorReport :=
  let metadata_upload_step := MetadataUploadStep in
  steps_before_ready_to_publish_results ←
    do_run_steps steps_before_ready_to_publish [];
  last_result ← lift (item_last steps_before_ready_to_publish_results);
  if bool_decide (status last_result ≠ SUCCESS) then
    if bool_decide (status last_result = SKIPPED) then
      metadata_upload_results ← do_run metadata_upload_step;
      mret (report (steps_before_ready_to_publish_results
                      ++ [metadata_upload_results]))
    else
      mret (report steps_before_ready_to_publish_results)
  else
    let step_results := steps_before_ready_to_publish_results in
    build_connector_results ← do_run BuildConnectorForPublishStep;
    let step_results := list_append step_results build_connector_results in
    if bool_decide (status build_connector_results ≠ SUCCESS) then
      mret (report step_results)
    else
      let built_connector_platform_variants :=
        output_artifact build_connector_results in
      primary ← lift (artifact_item0 built_connector_platform_variants);
      let steps_to_publish :=
        [(UploadSpecToCacheStep, [primary]);
         (PushConnectorImageToRegistryStep, [built_connector_platform_variants]);
         (metadata_upload_step, [])] in
      step_results ← do_run_steps steps_to_publish step_results;
      mret (report step_results).
End pipeline.

(** ** A reference instance of the standard library

    An executable decoder and encoder for the core of JSON, on which the
    steps can be run. On the texts of its domain it returns what Python's
    [json] module returns. Its domain: numbers are integers (a fraction or
    an exponent is refused), strings have no [\u] escape and, where they are
    encoded or printed, are ASCII; [NaN] and [Infinity] are refused. *)

Module CoreLibrary.

Definition is_whitespace (c : ascii) : bool :=
  match c with
  | " "%char | "009"%char | "010"%char | "013"%char => true
  | _ => false
  end.

Fixpoint skip_whitespace (s : string) : string :=
  match s with
  | String c s' => if is_whitespace c then skip_whitespace s' else s
  | EmptyString => EmptyString
  end.

Definition is_digit (c : ascii) : bool :=
  (48 <=? nat_of_ascii c)%nat && (nat_of_ascii c <=? 57)%nat.

Definition digit_value (c : ascii) : Z := Z.of_nat (nat_of_ascii c - 48).

(** The digits at the head of [s], as the number they write after [acc]. *)
Fixpoint digits (acc : Z) (s : string) : Z * string :=
  match s with
  | String c s' =>
      if is_digit c then digits (10 * acc + digit_value c) s' else (acc, s)
  | EmptyString => (acc, s)
  end.

(** An integer literal (an optional minus sign, then either a single zero
    or digits that do not start with a zero) that no fraction or exponent
    follows. *)
Definition scan_int (s : string) : option (json * string) :=
  let '(negative, s) :=
    match s with
    | String "-"%char s' => (true, s')
    | _ => (false, s)
    end in
  let number :=
    match s with
    | String "0"%char s' => Some (0%Z, s')
    | String c _ => if is_digit c then Some (digits 0 s) else None
    | EmptyString => None
    end in
  match number with
  | Some (n, rest) =>
      match rest with
      | String "."%char _ | String "e"%char _ | String "E"%char _ => None
      | _ => Some (JInt (if negative then - n else n)%Z, rest)
      end
  | None => None
  end.

Definition unescape (c : ascii) : option ascii :=
  match c with
  | "034"%char => Some "034"%char
  | "\"%char => Some "\"%char
  | "/"%char => Some "/"%char
  | "b"%char => Some "008"%char
  | "f"%char => Some "012"%char
  | "n"%char => Some "010"%char
  | "r"%char => Some "013"%char
  | "t"%char => Some "009"%char
  | _ => None
  end.

(** The rest of a string literal, after its opening quote; control
    characters are refused, as by the strict decoder. *)
Fixpoint scan_string (acc : string) (s : string) : option (string * string) :=
  match s with
  | EmptyString => None
  | String c s' =>
      if Ascii.eqb c "034" then Some (String.rev acc, s')
      else if Ascii.eqb c "\" then
        match s' with
        | String e s'' =>
            match unescape e with
            | Some c' => scan_string (String c' acc) s''
            | None => None
            end
        | EmptyString => None
        end
      else if (nat_of_ascii c <? 32)%nat then None
      else scan_string (String c acc) s'
  end.

(** [dict(pairs)], a pair at a time: a key that is there keeps its place
    and takes the new value. *)
Fixpoint dict_set (d : list (string * json)) (k : string) (v : json)
    : list (string * json) :=
  match d with
  | [] => [(k, v)]
  | (k', v') :: d' =>
      if String.eqb k k' then (k', v) :: d' else (k', v') :: dict_set d' k v
  end.

Fixpoint scan_value (fuel : nat) (s : string) : option (json * string) :=
  match fuel with
  | O => None
  | S fuel =>
      match s with
      | String "{"%char s' =>
          match skip_whitespace s' with
          | String "}"%char rest => Some (JObj [], rest)
          | s'' => scan_members fuel [] s''
          end
      | String "["%char s' =>
          match skip_whitespace s' with
          | String "]"%char rest => Some (JArr [], rest)
          | s'' => scan_items fuel [] s''
          end
      | String "034"%char s' =>
          match scan_string EmptyString s' with
          | Some (str, rest) => Some (JStr str, rest)
          | None => None
          end
      | String "n"%char (String "u"%char (String "l"%char (String "l"%char rest))) =>
          Some (JNull, rest)
      | String "t"%char (String "r"%char (String "u"%char (String "e"%char rest))) =>
          Some (JBool true, rest)
      | String "f"%char (String "a"%char (String "l"%char (String "s"%char
          (String "e"%char rest)))) =>
          Some (JBool false, rest)
      | _ => scan_int s
      end
  end
with scan_items (fuel : nat) (acc : list json) (s : string)
    : option (json * string) :=
  match fuel with
  | O => None
  | S fuel =>
      match scan_value fuel s with
      | Some (v, rest) =>
          match skip_whitespace rest with
          | String ","%char rest' =>
              scan_items fuel (v :: acc) (skip_whitespace rest')
          | String "]"%char rest' => Some (JArr (rev (v :: acc)), rest')
          | _ => None
          end
      | None => None
      end
  end
with scan_members (fuel : nat) (acc : list (string * json)) (s : string)
    : option (json * string) :=
  match fuel with
  | O => None
  | S fuel =>
      match s with
      | String "034"%char s' =>
          match scan_string EmptyString s' with
          | Some (k, rest) =>
              match skip_whitespace rest with
              | String ":"%char rest' =>
                  match scan_value fuel (skip_whitespace rest') with
                  | Some (v, rest'') =>
                      match skip_whitespace rest'' with
                      | String ","%char rest''' =>
                          scan_members fuel (dict_set acc k v)
                            (skip_whitespace rest''')
                      | String "}"%char rest''' =>
                          Some (JObj (dict_set acc k v), rest''')
                      | _ => None
                      end
                  | None => None
                  end
              | _ => None
              end
          | None => None
          end
      | _ => None
      end
  end.

(** [json.loads]: one value, with white space around it and nothing
    else. *)
Definition loads (s : string) : option json :=
  let s := skip_whitespace s in
  match scan_value (S (String.length s)) s with
  | Some (v, rest) =>
      match skip_whitespace rest with
      | EmptyString => Some v
      | _ => None
      end
  | None => None
  end.

End CoreLibrary.

Module CoreLibraryText.
Import CoreLibrary.

Definition hex_digit (n : nat) : ascii :=
  ascii_of_nat (if (n <? 10)%nat then 48 + n else 87 + n).

(** The two hexadecimal digits of a character. *)
Definition hex2 (c : ascii) : string :=
  let n := nat_of_ascii c in
  String (hex_digit (n / 16)) (String (hex_digit (n mod 16)) EmptyString).

Definition quote : string := String "034" EmptyString.
Definition backslash : string := String "\" EmptyString.

(** [json.dumps] of a string, with [ensure_ascii]. *)
Definition dumps_char (c : ascii) : string :=
  if Ascii.eqb c "034" then backslash +:+ quote
  else if Ascii.eqb c "\" then backslash +:+ backslash
  else if Ascii.eqb c "010" then backslash +:+ "n"
  else if Ascii.eqb c "013" then backslash +:+ "r"
  else if Ascii.eqb c "009" then backslash +:+ "t"
  else if Ascii.eqb c "008" then backslash +:+ "b"
  else if Ascii.eqb c "012" then backslash +:+ "f"
  else if (nat_of_ascii c <? 32)%nat || (nat_of_ascii c =? 127)%nat
       then backslash +:+ "u00" +:+ hex2 c
  else String c EmptyString.

Definition dumps_str (s : string) : string :=
  quote +:+ String.concat EmptyString (map dumps_char (list_ascii_of_string s))
        +:+ quote.

Definition dumps_float (repr : string) : string :=
  if String.eqb repr "nan" then "NaN"
  else if String.eqb repr "inf" then "Infinity"
  else if String.eqb repr "-inf" then "-Infinity"
  else repr.

(** [json.dumps], with its default separators. *)
Fixpoint dumps (v : json) : string :=
  match v with
  | JNull => "null"
  | JBool true => "true"
  | JBool false => "false"
  | JInt z => pretty z
  | JFloat repr => dumps_float repr
  | JStr s => dumps_str s
  | JArr items => "[" +:+ String.concat ", " (map dumps items) +:+ "]"
  | JObj members =>
      "{" +:+ String.concat ", "
                (map (λ kv, dumps_str (fst kv) +:+ ": " +:+ dumps (snd kv)) members)
          +:+ "}"
  end.

(** [repr] of a string: in single quotes, unless it has a single quote
    and no double quote. *)
Definition repr_char (q : ascii) (c : ascii) : string :=
  if Ascii.eqb c q || Ascii.eqb c "\" then backslash +:+ String c EmptyString
  else if Ascii.eqb c "010" then backslash +:+ "n"
  else if Ascii.eqb c "013" then backslash +:+ "r"
  else if Ascii.eqb c "009" then backslash +:+ "t"
  else if (nat_of_ascii c <? 32)%nat || (nat_of_ascii c =? 127)%nat
       then backslash +:+ "x" +:+ hex2 c
  else String c EmptyString.

Definition repr_str (s : string) : string :=
  let q : ascii :=
    if str_contains "'" s && negb (str_contains quote s) then "034"%char
    else "'"%char in
  String q (String.concat EmptyString (map (repr_char q) (list_ascii_of_string s)))
  +:+ String q EmptyString.

Fixpoint repr (v : json) : string :=
  match v with
  | JNull => "None"
  | JBool true => "True"
  | JBool false => "False"
  | JInt z => pretty z
  | JFloat r => r
  | JStr s => repr_str s
  | JArr items => "[" +:+ String.concat ", " (map repr items) +:+ "]"
  | JObj members =>
      "{" +:+ String.concat ", "
                (map (λ kv, repr_str (fst kv) +:+ ": " +:+ repr (snd kv)) members)
          +:+ "}"
  end.

(** [str(v)]: a string is itself, every other value is its [repr]. *)
Definition str (v : json) : string :=
  match v with
  | JStr s => s
  | _ => repr v
  end.

(** JSON texts are written below with single quotes in place of the
    double quotes: [text] puts the double quotes back. *)
Definition text (s : string) : string := str_replace "'" quote s.

End CoreLibraryText.

#[export] Instance core_library : Library := {|
  json_loads := CoreLibrary.loads;
  json_dumps := CoreLibraryText.dumps;
  py_str := CoreLibraryText.str;
|}.


Import CoreLibraryText.

(** A context and remote services to run the steps on. *)
Definition example_context (pre_release : bool) : PublishConnectorContext := {|
  docker_image_name := "airbyte/source-faker:0.1.4";
  docker_image_from_metadata := "airbyte/source-faker:0.1.4";
  metadata := {[ "dockerRepository" := JStr "airbyte/source-faker";
                 "dockerImageTag" := JStr "0.1.4" ]};
  pre_release := pre_release;
  metadata_path := "airbyte-integrations/connectors/source-faker/metadata.yaml";
  spec_cache_bucket_name := "spec-cache";
  spec_cache_gcs_credentials_secret := "credentials";
|}.

Definition example_platforms : list string := ["linux/amd64"; "linux/arm64"].

(** ** What a manifest list publishes

    The reading of a decoded manifest list as the platforms it publishes:
    an object whose [manifests] are objects, each with the [os] and the
    [architecture] of its [platform] as strings. *)

Definition platform_name (p : string * string) : string :=
  p.1 +:+ "/" +:+ p.2.

Definition manifest_for (manifest : json) (p : string * string) : Prop :=
  ∃ members platform,
    manifest = JObj members ∧
    dict_lookup "platform" members = Some (JObj platform) ∧
    dict_lookup "os" platform = Some (JStr p.1) ∧
    dict_lookup "architecture" platform = Some (JStr p.2).

Definition publishes (document : json) (published : list (string * string)) : Prop :=
  ∃ members manifests,
    document = JObj members ∧
    dict_lookup "manifests" members = Some (JArr manifests) ∧
    Forall2 manifest_for manifests published.

(** An entry of a manifest list in which the lookups of the step find
    something: an object with a [platform] that is an object with an [os]
    and an [architecture], of whatever type. *)
Definition has_platform (manifest : json) : Prop :=
  ∃ members platform os architecture,
    manifest = JObj members ∧
    dict_lookup "platform" members = Some (JObj platform) ∧
    dict_lookup "os" platform = Some os ∧
    dict_lookup "architecture" platform = Some architecture.

(** The marker of a missing manifest in the error stream. *)
Definition no_such_manifest (manifest_inspect_stderr : string) : bool :=
  str_contains "no such manifest" manifest_inspect_stderr.

(** ** Responses of the manifest inspection to run the check on *)

(** A manifest list that publishes the two platforms. *)
Definition two_platforms_stdout : string := text
"{
   'schemaVersion': 2,
   'mediaType': 'application/vnd.docker.distribution.manifest.list.v2+json',
   'manifests': [
      {
         'mediaType': 'application/vnd.docker.distribution.manifest.v2+json',
         'size': 2214,
         'digest': 'sha256:0a',
         'platform': {
            'architecture': 'amd64',
            'os': 'linux'
         }
      },
      {
         'mediaType': 'application/vnd.docker.distribution.manifest.v2+json',
         'size': 2214,
         'digest': 'sha256:0b',
         'platform': {
            'architecture': 'arm64',
            'os': 'linux',
            'variant': 'v8'
         }
      }
   ]
}
".

Definition two_platforms_document : json :=
  JObj [("schemaVersion", JInt 2);
        ("mediaType",
         JStr "application/vnd.docker.distribution.manifest.list.v2+json");
        ("manifests",
         JArr [JObj [("mediaType",
                      JStr "application/vnd.docker.distribution.manifest.v2+json");
                     ("size", JInt 2214);
                     ("digest", JStr "sha256:0a");
                     ("platform", JObj [("architecture", JStr "amd64");
                                        ("os", JStr "linux")])];
               JObj [("mediaType",
                      JStr "application/vnd.docker.distribution.manifest.v2+json");
                     ("size", JInt 2214);
                     ("digest", JStr "sha256:0b");
                     ("platform", JObj [("architecture", JStr "arm64");
                                        ("os", JStr "linux");
                                        ("variant", JStr "v8")])]])].

(** A payload that is not JSON as it comes, because a string of it runs
    over a line break, and is JSON once the line breaks are removed. *)
Definition broken_line_stdout : string := text
"{'schemaVersion': 2, 'annotation': 'one
two'}".

(** A manifest list with an entry that has no platform. *)
Definition no_platform_stdout : string := text
"{'schemaVersion': 2, 'manifests': [{'digest': 'sha256:0a', 'size': 2214}]}".

(** What the daemon writes when the registry cannot be reached. *)
Definition unreachable_stderr : string :=
  "error during connect: Get https://registry-1.docker.io/v2/: timeout".

(** ** Results of the builds of the platforms to run the build step on *)

Definition built (platform : string) : StepResult := {|
  step := BuildConnectorImageStep platform; status := SUCCESS;
  stdout := None; stderr := None;
  output_artifact := ContainerArtifact (ContainerId platform);
|}.

Definition not_built (platform : string) : StepResult := {|
  step := BuildConnectorImageStep platform; status := FAILURE;
  stdout := None; stderr := Some ("The build for " +:+ platform +:+ " failed.");
  output_artifact := NoArtifact;
|}.

Definition succeeded (build : string * StepResult) : Prop :=
  status build.2 = SUCCESS.

(** ** Remote services to run the steps on *)

(** What a connector prints for its [spec] command: a line of log, then
    the line [record]. *)
Definition spec_lines (record : string) : string :=
  text "{'type': 'LOG', 'log': {'level': 'INFO', 'message': 'starting'}}" +:+
  String newline (text record) +:+ String newline EmptyString.

Definition oss_spec_line : string :=
  "{'type': 'SPEC', 'spec': {'documentationUrl': 'https://docs.airbyte.com'}}".

Definition cloud_spec_line : string :=
  "{'type': 'SPEC', 'spec': {'documentationUrl': 'https://cloud.airbyte.com'}}".

Definition trace_line : string :=
  "{'type': 'TRACE', 'trace': {'type': 'ERROR'}}".

(** Services of which the registry answers [registry] to a publish, object
    storage answers [storage] to an upload, and the connector prints
    [oss_output] for the OSS deployment and [cloud_output] for the CLOUD
    one. *)
Definition example_services (registry : string → result string)
    (storage : string → Z * string * string) (oss_output cloud_output : string)
    : Services := {|
  upload_to_gcs := λ file key bucket credentials, storage key;
  publish := λ container address platform_variants, registry address;
  spec_stdout := λ connector deployment_mode,
    Ok (if String.eqb deployment_mode "CLOUD" then cloud_output else oss_output);
|}.

Definition registry_up (address : string) : result string :=
  Ok (address +:+ "@sha256:0c").

Definition registry_down (address : string) : result string :=
  Raise (QueryError "unauthorized: authentication required").

Definition storage_up (key : string) : Z * string * string :=
  (0%Z, "Uploaded " +:+ key, EmptyString).

Definition storage_down (key : string) : Z * string * string :=
  (1%Z, EmptyString, "AccessDenied: " +:+ key).

(** A record of type SPEC: the reading of "a JSON record whose type field
    equals SPEC". *)
Definition is_spec_record (v : json) : Prop :=
  ∃ members, v = JObj members ∧ dict_lookup "type" members = Some (JStr "SPEC").

(** No line of the output decodes to a record of type SPEC. *)
Definition no_spec_line `{Library} (spec_output : string) : Prop :=
  ∀ line v, line ∈ str_split newline spec_output →
            json_loads line = Some v → ¬ is_spec_record v.

(** The keys of the uploads of a log. *)
Definition uploaded_keys (log : list event) : list string :=
  omap (λ e, match e with UploadToGcs _ key _ _ => Some key | _ => None end) log.

(** The connector prints a spec for OSS and another for CLOUD. *)
Definition differing_specs_services : Services :=
  example_services registry_up storage_up
    (spec_lines oss_spec_line) (spec_lines cloud_spec_line).

(** The connector prints the same spec for OSS and for CLOUD. *)
Definition equal_specs_services : Services :=
  example_services registry_up storage_up
    (spec_lines oss_spec_line) (spec_lines oss_spec_line).

(** The connector prints no record of type SPEC. *)
Definition no_spec_services : Services :=
  example_services registry_up storage_up
    (spec_lines trace_line) (spec_lines trace_line).

(** The registry refuses to publish. *)
Definition registry_down_services : Services :=
  example_services registry_down storage_up
    (spec_lines oss_spec_line) (spec_lines oss_spec_line).

Definition amd64 : Container := ContainerId "linux/amd64".
Definition arm64 : Container := ContainerId "linux/arm64".

(** ** The steps a run dispatches *)

(** The steps that the calls of a log hand to [Step.run] or to [run_steps],
    in the order of the calls. *)
Definition dispatched (log : list event) : list Step :=
  log ≫= λ e,
    match e with
    | Run s => [s]
    | RunSteps steps _ => fst <$> steps
    | _ => []
    end.

(** A runner of which every step succeeds, but for the check of the image,
    which ends with the status [check]; [run_steps] runs the steps one after
    the other and adds their results to the results so far. *)
Definition example_result (check : StepStatus) (s : Step) : StepResult := {|
  step := s;
  status := match s with
            | CheckConnectorImageDoesNotExistStep => check
            | _ => SUCCESS
            end;
  stdout := None; stderr := None;
  output_artifact := match s with
                     | BuildConnectorForPublishStep =>
                         ListArtifact [ContainerArtifact amd64;
                                       ContainerArtifact arm64]
                     | _ => NoArtifact
                     end;
|}.

Definition example_runner (check : StepStatus) : Runner := {|
  run_steps := λ steps results, results ++ (example_result check ∘ fst <$> steps);
  run := example_result check;
|}.

(** ** More responses, outputs and runners to run the code on *)

(** The manifest of an image of one platform: it has no list of
    manifests. *)
Definition single_platform_stdout : string := text
"{
   'schemaVersion': 2,
   'mediaType': 'application/vnd.docker.distribution.manifest.v2+json',
   'config': {'size': 7023, 'digest': 'sha256:0c'},
   'layers': []
}
".

(** A payload that is JSON and not an object. *)
Definition list_stdout : string := text "[{'platform': {'os': 'linux'}}]".

(** A manifest list that publishes one platform more than
    [two_platforms_stdout], in another order. *)
Definition three_platforms_stdout : string := text
"{'manifests': [
   {'platform': {'architecture': 'arm', 'os': 'linux', 'variant': 'v7'}},
   {'platform': {'architecture': 'arm64', 'os': 'linux'}},
   {'platform': {'architecture': 'amd64', 'os': 'linux'}}]}".

(** A line of the output of the spec command that the extraction passes
    over: it does not decode, or it decodes to an object that has no [type]
    or another [type] than SPEC. *)
Definition skipped_line `{Library} (line : string) : Prop :=
  json_loads line = None ∨
  ∃ members, json_loads line = Some (JObj members) ∧
             dict_lookup "type" members ≠ Some (JStr "SPEC").

(** A runner of which the steps before publishing succeed and the build
    ends with the status [build] and the artifact [built_artifact]. *)
Definition build_result (build : StepStatus) (built_artifact : artifact)
    (s : Step) : StepResult := {|
  step := s;
  status := match s with
            | BuildConnectorForPublishStep => build
            | _ => SUCCESS
            end;
  stdout := None; stderr := None;
  output_artifact := match s with
                     | BuildConnectorForPublishStep => built_artifact
                     | _ => NoArtifact
                     end;
|}.

Definition build_runner (build : StepStatus) (built_artifact : artifact)
    : Runner := {|
  run_steps := λ steps results,
    results ++ (build_result build built_artifact ∘ fst <$> steps);
  run := build_result build built_artifact;
|}.

(** A registry that publishes the versioned reference and refuses the
    latest one. *)
Definition registry_latest_locked (address : string) : result string :=
  if str_contains ":latest" address
  then Raise (QueryError "denied: the tag latest is locked")
  else Ok (address +:+ "@sha256:0c").

Definition latest_locked_services : Services :=
  example_services registry_latest_locked storage_up
    (spec_lines oss_spec_line) (spec_lines oss_spec_line).

(** Object storage refuses the upload. *)
Definition storage_down_services : Services :=
  example_services registry_up storage_down
    (spec_lines oss_spec_line) (spec_lines oss_spec_line).

(** The connector prints a bare number before its spec. *)
Definition number_then_spec_output : string :=
  "42" +:+ String newline (text oss_spec_line) +:+ String newline EmptyString.

(** The line of log that [spec_lines] starts with. *)
Definition log_line : string :=
  text "{'type': 'LOG', 'log': {'level': 'INFO', 'message': 'starting'}}".

(** ** The points the pipeline branches on *)

Section branches.
Context {runner : Runner}.

(** The results of the steps before publishing. *)
Definition gating_results : list StepResult :=
  run_steps steps_before_ready_to_publish [].

(** The last of them is SKIPPED: the version is published already. *)
Definition already_published : Prop :=
  ∃ last_result, item_last gating_results = Ok last_result ∧
                 status last_result = SKIPPED.

(** The last of them is SUCCESS: the version is to be built. *)
Definition ready_to_publish : Prop :=
  ∃ last_result, item_last gating_results = Ok last_result ∧
                 status last_result = SUCCESS.

(** The build succeeded and has a first artifact: the version is to be
    published. *)
Definition built_to_publish : Prop :=
  ready_to_publish ∧
  status (run BuildConnectorForPublishStep) = SUCCESS ∧
  ∃ primary,
    artifact_item0 (output_artifact (run BuildConnectorForPublishStep))
    = Ok primary.
End branches.

(** The context of a pre-release: the image that is inspected and pushed
    has the suffix of the revision, the image of the metadata has not. *)
Definition pre_release_context : PublishConnectorContext := {|
  docker_image_name := "airbyte/source-faker:0.1.4-dev.0a1b2c3d4e";
  docker_image_from_metadata := "airbyte/source-faker:0.1.4";
  metadata := {[ "dockerRepository" := JStr "airbyte/source-faker";
                 "dockerImageTag" := JStr "0.1.4" ]};
  pre_release := true;
  metadata_path := "airbyte-integrations/connectors/source-faker/metadata.yaml";
  spec_cache_bucket_name := "spec-cache";
  spec_cache_gcs_credentials_secret := "credentials";
|}.

(** What the registry answers for the image of this pre-release. *)
Definition pre_release_stderr : string :=
  "no such manifest: docker.io/airbyte/source-faker:0.1.4-dev.0a1b2c3d4e".

(** * Properties *)

(** ** Strings *)

Section strings.
Implicit Types s p needle : string.

Lemma str_app_assoc (s1 s2 s3 : string) :
  (s1 +:+ s2) +:+ s3 = s1 +:+ (s2 +:+ s3).
Proof.
  induction s1 as [|c s1 IH]; [done|].
  change (String c ((s1 +:+ s2) +:+ s3) = String c (s1 +:+ s2 +:+ s3)).
  by rewrite IH.
Qed.

Lemma str_startswith_app p s : str_startswith p (p +:+ s) = true.
Proof.
  induction p as [|c p IH]; simpl; [done|].
  by rewrite Ascii.eqb_refl.
Qed.

Lemma str_contains_app_r needle s1 s2 :
  str_contains needle s2 = true → str_contains needle (s1 +:+ s2) = true.
Proof.
  intros Hs2. induction s1 as [|c s1 IH]; simpl; [done|].
  rewrite IH. apply orb_true_r.
Qed.

Lemma str_contains_here needle s : str_contains needle (needle +:+ s) = true.
Proof.
  destruct needle as [|c needle]; destruct s as [|d s]; simpl; try done.
  - rewrite Ascii.eqb_refl.
    pose proof (str_startswith_app needle EmptyString) as Hp.
    by rewrite Hp.
  - rewrite Ascii.eqb_refl.
    pose proof (str_startswith_app needle (String d s)) as Hp.
    by rewrite Hp.
Qed.

(** A string that is built around [needle] contains it. *)
Lemma str_contains_middle needle s1 s2 :
  str_contains needle (s1 +:+ needle +:+ s2) = true.
Proof. apply str_contains_app_r, str_contains_here. Qed.

(** [in] finds exactly the substrings. *)
Lemma str_startswith_inv p s :
  str_startswith p s = true → ∃ s', s = p +:+ s'.
Proof.
  revert s. induction p as [|c p IH]; intros s; simpl.
  - by exists s.
  - destruct s as [|d s]; [done|].
    destruct (Ascii.eqb_spec c d) as [->|]; [|done].
    intros [s' ->]%IH. by exists s'.
Qed.

Lemma str_contains_inv needle s :
  str_contains needle s = true → ∃ s1 s2, s = s1 +:+ needle +:+ s2.
Proof.
  induction s as [|c s IH]; simpl.
  - rewrite orb_false_r. intros [s' Hs']%str_startswith_inv.
    by exists EmptyString, s'.
  - intros [Hp|Hc]%orb_true_iff.
    + apply str_startswith_inv in Hp as [s' Hs']. by exists EmptyString, s'.
    + destruct (IH Hc) as (s1 & s2 & ->). by exists (String c s1), s2.
Qed.
End strings.

(** ** CheckConnectorImageDoesNotExist *)

Section check_connector_image_does_not_exist.
Import CheckConnectorImageDoesNotExist.
Context {library : Library}.
Variable BUILD_PLATFORMS : list string.
Variable context : PublishConnectorContext.

Local Abbreviation _run := (_run BUILD_PLATFORMS context).

Lemma platform_of_manifest_for manifest p :
  manifest_for manifest p → platform_of manifest = Ok (platform_name p).
Proof.
  intros (members & platform & -> & Hplatform & Hos & Harch).
  unfold platform_of. simpl. rewrite Hplatform. simpl.
  by rewrite Hos, Harch.
Qed.

Lemma mapM_platform_of manifests published :
  Forall2 manifest_for manifests published →
  mapM platform_of manifests = Ok (platform_name <$> published).
Proof.
  induction 1 as [|manifest p manifests published Hp _ IH]; [done|].
  simpl. rewrite (platform_of_manifest_for _ _ Hp). simpl.
  by rewrite IH.
Qed.

Lemma available_platforms_of_publishes manifests published :
  Forall2 manifest_for manifests published →
  available_platforms_of (JArr manifests)
  = Ok (list_to_set (platform_name <$> published)).
Proof.
  intros Hall. unfold available_platforms_of. simpl.
  by rewrite (mapM_platform_of _ _ Hall).
Qed.

Lemma subseteq_list_to_set (required available : list string) :
  (list_to_set required : gset string) ⊆ list_to_set available
  ↔ required ⊆ available.
Proof.
  split.
  - intros Hsub p Hp. apply (elem_of_list_to_set (C := gset string)).
    apply Hsub. by apply elem_of_list_to_set.
  - intros Hsub p Hp%elem_of_list_to_set.
    apply elem_of_list_to_set. by apply Hsub.
Qed.

(** C3. When the registry has a manifest list (no "no such manifest" in
    the error stream) and the payload decodes to a document that publishes
    the platforms [published], the step returns a result whose status is
    SKIPPED exactly when every required platform is, as the exact string
    os/architecture, among the published ones, and SUCCESS exactly when one
    is not: one of the two, never both, and never anything else. The
    payload is decoded as the step decodes it, with its line breaks
    removed. *)
Theorem check_manifest_exists_skipped_or_success
    manifest_inspect_stderr manifest_inspect_stdout document published :
  no_such_manifest manifest_inspect_stderr = false →
  json_loads (str_replace newline EmptyString manifest_inspect_stdout)
    = Some document →
  publishes document published →
  ∃ r, _run manifest_inspect_stderr manifest_inspect_stdout = Ok r ∧
       (status r = SKIPPED ↔ BUILD_PLATFORMS ⊆ platform_name <$> published) ∧
       (status r = SUCCESS ↔ ¬ BUILD_PLATFORMS ⊆ platform_name <$> published).
Proof.
  intros Hstderr Hloads (members & manifests & -> & Hmanifests & Hall).
  unfold CheckConnectorImageDoesNotExist._run.
  unfold no_such_manifest in Hstderr. rewrite Hstderr.
  unfold loads. rewrite Hloads. simpl. rewrite Hmanifests. simpl.
  rewrite (available_platforms_of_publishes _ _ Hall). simpl.
  case_bool_decide as Hsub; rewrite subseteq_list_to_set in Hsub;
    eexists; (split; [reflexivity|]); simpl; split; split; try done.
Qed.

(** C4, as amended. When the error stream contains "no such manifest",
    the step returns SUCCESS with the message "No manifest found for", the
    image reference of the metadata ([docker_image_from_metadata]) and a
    full stop. The message so mentions the reference of the metadata; it
    mentions the reference that was inspected ([docker_image_name]) when
    the two are the same. The step does so whatever the payload is and
    whatever the decoder would make of it: the payload is not decoded. *)
Theorem check_no_such_manifest_success
    manifest_inspect_stderr manifest_inspect_stdout :
  no_such_manifest manifest_inspect_stderr = true →
  ∃ message,
    _run manifest_inspect_stderr manifest_inspect_stdout
    = Ok {| step := self; status := SUCCESS; stdout := Some message;
            stderr := None; output_artifact := NoArtifact |} ∧
    message
    = "No manifest found for " +:+ docker_image_from_metadata context +:+ "." ∧
    str_contains (docker_image_from_metadata context) message = true ∧
    (docker_image_name context = docker_image_from_metadata context →
     str_contains (docker_image_name context) message = true) ∧
    ∀ (decoder : Library) (payload : string),
      @CheckConnectorImageDoesNotExist._run decoder BUILD_PLATFORMS context
        manifest_inspect_stderr payload
      = _run manifest_inspect_stderr manifest_inspect_stdout.
Proof.
  intros Hstderr. unfold no_such_manifest in Hstderr.
  unfold CheckConnectorImageDoesNotExist._run. rewrite Hstderr.
  eexists. split; [reflexivity|]. split; [reflexivity|].
  split; [apply str_contains_middle|]. split; [|done].
  intros ->. apply str_contains_middle.
Qed.

(** C5, as amended. When the error stream does not contain "no such
    manifest" and the payload, once its line breaks are removed, cannot be
    decoded, the step returns FAILURE with the two streams as they
    came. *)
Theorem check_undecodable_payload_failure
    manifest_inspect_stderr manifest_inspect_stdout :
  no_such_manifest manifest_inspect_stderr = false →
  json_loads (str_replace newline EmptyString manifest_inspect_stdout) = None →
  _run manifest_inspect_stderr manifest_inspect_stdout
  = Ok {| step := self; status := FAILURE;
          stdout := Some manifest_inspect_stdout;
          stderr := Some manifest_inspect_stderr;
          output_artifact := NoArtifact |}.
Proof.
  intros Hstderr Hloads. unfold no_such_manifest in Hstderr.
  unfold CheckConnectorImageDoesNotExist._run. rewrite Hstderr.
  unfold loads. by rewrite Hloads.
Qed.

(** What the lookups in a manifest raise is never a decoding error. *)
Lemma getitem_not_decode_error v k e :
  getitem v k = Raise e → class_of e ≠ CJSONDecodeError.
Proof.
  destruct v; simpl; try (intros [= <-]; done).
  destruct (dict_lookup k members); [done|]. by intros [= <-].
Qed.

Lemma platform_of_not_decode_error manifest e :
  platform_of manifest = Raise e → class_of e ≠ CJSONDecodeError.
Proof.
  unfold platform_of.
  destruct (getitem manifest "platform") as [platform|e1] eqn:Hplatform; simpl;
    [|intros [= <-]; by eapply getitem_not_decode_error].
  destruct (getitem platform "os") as [os|e2] eqn:Hos; simpl;
    [|intros [= <-]; by eapply getitem_not_decode_error].
  destruct (getitem platform "architecture") as [arch|e3] eqn:Harch; simpl;
    [done|intros [= <-]; by eapply getitem_not_decode_error].
Qed.

Lemma mapM_platform_of_not_decode_error manifests e :
  mapM platform_of manifests = Raise e → class_of e ≠ CJSONDecodeError.
Proof.
  induction manifests as [|manifest manifests IH]; simpl; [done|].
  destruct (platform_of manifest) as [p|e1] eqn:Hp; simpl;
    [|intros [= <-]; by eapply platform_of_not_decode_error].
  destruct (mapM platform_of manifests) as [ps|e2]; simpl; [done|].
  intros [= <-]. by apply IH.
Qed.

Lemma available_platforms_of_not_decode_error manifests e :
  available_platforms_of manifests = Raise e → class_of e ≠ CJSONDecodeError.
Proof.
  unfold available_platforms_of.
  destruct (iterate manifests) as [items|e1] eqn:Hitems; simpl.
  - destruct (mapM platform_of items) as [ps|e2] eqn:Hps; simpl; [done|].
    intros [= <-]. by eapply mapM_platform_of_not_decode_error.
  - intros [= <-]. by destruct manifests; simplify_eq/=.
Qed.

(** The step returns FAILURE only when the decoder refuses the payload:
    no other error is turned into a result. *)
Lemma check_failure_only_from_decoding
    manifest_inspect_stderr manifest_inspect_stdout r :
  _run manifest_inspect_stderr manifest_inspect_stdout = Ok r →
  status r = FAILURE →
  no_such_manifest manifest_inspect_stderr = false ∧
  json_loads (str_replace newline EmptyString manifest_inspect_stdout) = None.
Proof.
  unfold CheckConnectorImageDoesNotExist._run, no_such_manifest.
  destruct (str_contains _ manifest_inspect_stderr); [by intros [= <-]|].
  unfold loads.
  destruct (json_loads _) as [document|]; [|done]. simpl.
  destruct (dict_get document "manifests" (JArr [])) as [manifests|e1] eqn:Hget;
    simpl.
  - destruct (available_platforms_of manifests) as [available|e2] eqn:Hav; simpl.
    + case_bool_decide; by intros [= <-].
    + apply available_platforms_of_not_decode_error in Hav.
      rewrite bool_decide_eq_false_2; [done|].
      by rewrite list_elem_of_singleton.
  - destruct document; simplify_eq/=; done.
Qed.

(** An entry without the platform fields makes the lookups raise. *)
Lemma platform_of_malformed manifest :
  ¬ has_platform manifest →
  ∃ e, platform_of manifest = Raise e ∧
       (class_of e = CKeyError ∨ class_of e = CTypeError).
Proof.
  intros Hno. unfold platform_of.
  destruct manifest as [| | | | |items|members]; simpl;
    try (eexists; split; [reflexivity|by right]).
  destruct (dict_lookup "platform" members) as [platform|] eqn:Hplatform; simpl;
    [|eexists; split; [reflexivity|by left]].
  destruct platform as [| | | | |items|platform]; simpl;
    try (eexists; split; [reflexivity|by right]).
  destruct (dict_lookup "os" platform) as [os|] eqn:Hos; simpl;
    [|eexists; split; [reflexivity|by left]].
  destruct (dict_lookup "architecture" platform) as [architecture|] eqn:Harch;
    simpl; [|eexists; split; [reflexivity|by left]].
  destruct Hno. by exists members, platform, os, architecture.
Qed.

Lemma platform_of_has_platform manifest :
  has_platform manifest → ∃ name, platform_of manifest = Ok name.
Proof.
  intros (members & platform & os & architecture & -> & Hplatform & Hos & Harch).
  unfold platform_of. simpl. rewrite Hplatform. simpl. rewrite Hos, Harch.
  by eexists.
Qed.

Lemma mapM_platform_of_malformed before entry after :
  Forall has_platform before →
  ¬ has_platform entry →
  ∃ e, mapM platform_of (before ++ entry :: after) = Raise e ∧
       (class_of e = CKeyError ∨ class_of e = CTypeError).
Proof.
  intros Hbefore Hentry.
  induction Hbefore as [|manifest before Hmanifest _ IH]; simpl.
  - destruct (platform_of_malformed _ Hentry) as (e & -> & He). by exists e.
  - destruct (platform_of_has_platform _ Hmanifest) as [name ->]. simpl.
    destruct IH as (e & -> & He). by exists e.
Qed.

(** Whatever the decoder, a manifest list with an entry without the platform
    fields makes the step raise [KeyError] or [TypeError]: no result is
    returned. *)
Lemma check_malformed_entry_raises
    manifest_inspect_stderr manifest_inspect_stdout members before entry after :
  no_such_manifest manifest_inspect_stderr = false →
  json_loads (str_replace newline EmptyString manifest_inspect_stdout)
    = Some (JObj members) →
  dict_lookup "manifests" members = Some (JArr (before ++ entry :: after)) →
  Forall has_platform before →
  ¬ has_platform entry →
  ∃ e, _run manifest_inspect_stderr manifest_inspect_stdout = Raise e ∧
       (class_of e = CKeyError ∨ class_of e = CTypeError).
Proof.
  intros Hstderr Hloads Hmanifests Hbefore Hentry.
  unfold CheckConnectorImageDoesNotExist._run, no_such_manifest in *.
  rewrite Hstderr. unfold loads. rewrite Hloads. simpl. rewrite Hmanifests. simpl.
  unfold available_platforms_of. simpl.
  destruct (mapM_platform_of_malformed _ _ after Hbefore Hentry) as (e & -> & He).
  simpl. exists e. split; [|done].
  rewrite bool_decide_eq_false_2; [done|].
  rewrite list_elem_of_singleton. by destruct He as [->| ->].
Qed.
End check_connector_image_does_not_exist.

Lemma check_manifest_exists_skipped_or_success_witness :
  no_such_manifest EmptyString = false ∧
  json_loads (str_replace newline EmptyString two_platforms_stdout)
    = Some two_platforms_document ∧
  publishes two_platforms_document [("linux", "amd64"); ("linux", "arm64")] ∧
  ∃ r, CheckConnectorImageDoesNotExist._run example_platforms
         (example_context false) EmptyString two_platforms_stdout = Ok r ∧
       (status r = SKIPPED
        ↔ example_platforms
          ⊆ platform_name <$> [("linux", "amd64"); ("linux", "arm64")]) ∧
       (status r = SUCCESS
        ↔ ¬ example_platforms
            ⊆ platform_name <$> [("linux", "amd64"); ("linux", "arm64")]).
Proof.
  assert (publishes two_platforms_document [("linux", "amd64"); ("linux", "arm64")])
    as Hpublishes.
  { eexists _, _. split; [reflexivity|]. split; [reflexivity|].
    repeat constructor; eexists _, _; repeat split; reflexivity. }
  split; [reflexivity|]. split; [vm_compute; reflexivity|]. split; [exact Hpublishes|].
  apply (check_manifest_exists_skipped_or_success example_platforms
           (example_context false) EmptyString two_platforms_stdout
           two_platforms_document [("linux", "amd64"); ("linux", "arm64")]);
    [reflexivity | vm_compute; reflexivity | exact Hpublishes].
Defined.

Lemma check_no_such_manifest_success_witness :
  no_such_manifest pre_release_stderr = true ∧
  ∃ message,
    CheckConnectorImageDoesNotExist._run example_platforms pre_release_context
      pre_release_stderr EmptyString
    = Ok {| step := CheckConnectorImageDoesNotExist.self; status := SUCCESS;
            stdout := Some message; stderr := None;
            output_artifact := NoArtifact |} ∧
    message = "No manifest found for airbyte/source-faker:0.1.4." ∧
    str_contains (docker_image_from_metadata pre_release_context) message
    = true ∧
    (docker_image_name pre_release_context
     = docker_image_from_metadata pre_release_context →
     str_contains (docker_image_name pre_release_context) message = true) ∧
    ∀ (decoder : Library) (payload : string),
      @CheckConnectorImageDoesNotExist._run decoder example_platforms
        pre_release_context pre_release_stderr payload
      = CheckConnectorImageDoesNotExist._run example_platforms
          pre_release_context pre_release_stderr EmptyString.
Proof.
  split; [reflexivity|].
  apply (check_no_such_manifest_success example_platforms pre_release_context
           pre_release_stderr EmptyString).
  reflexivity.
Defined.

(** C4, as stated, fails: for a pre-release the step inspects the
    reference with the suffix of the revision, the registry answers "no such
    manifest" for it, and the message of the SUCCESS names the reference of
    the metadata, which the inspected reference is not part of. *)
Lemma check_no_such_manifest_reference_counterexample :
  no_such_manifest pre_release_stderr = true ∧
  docker_image_name pre_release_context
    = "airbyte/source-faker:0.1.4-dev.0a1b2c3d4e" ∧
  CheckConnectorImageDoesNotExist._run example_platforms pre_release_context
    pre_release_stderr EmptyString
  = Ok {| step := CheckConnectorImageDoesNotExist.self; status := SUCCESS;
          stdout := Some "No manifest found for airbyte/source-faker:0.1.4.";
          stderr := None; output_artifact := NoArtifact |} ∧
  str_contains (docker_image_name pre_release_context)
    "No manifest found for airbyte/source-faker:0.1.4." = false.
Proof. repeat split; reflexivity. Qed.

Lemma check_undecodable_payload_failure_witness :
  no_such_manifest unreachable_stderr = false ∧
  json_loads (str_replace newline EmptyString EmptyString) = None ∧
  CheckConnectorImageDoesNotExist._run example_platforms (example_context false)
    unreachable_stderr EmptyString
  = Ok {| step := CheckConnectorImageDoesNotExist.self; status := FAILURE;
          stdout := Some EmptyString; stderr := Some unreachable_stderr;
          output_artifact := NoArtifact |}.
Proof.
  split; [reflexivity|]. split; [reflexivity|].
  apply (check_undecodable_payload_failure example_platforms
           (example_context false) unreachable_stderr EmptyString);
    reflexivity.
Defined.

(** C5, as stated, fails: this payload cannot be decoded (a string of it
    holds a line break), the error stream has no "no such manifest", and the
    step returns SUCCESS, because what it decodes is the payload without its
    line breaks. *)
Lemma check_undecodable_stdout_counterexample :
  no_such_manifest EmptyString = false ∧
  json_loads broken_line_stdout = None ∧
  CheckConnectorImageDoesNotExist._run example_platforms (example_context false)
    EmptyString broken_line_stdout
  = Ok {| step := CheckConnectorImageDoesNotExist.self; status := SUCCESS;
          stdout := Some "No all manifests found for airbyte/source-faker:0.1.4.";
          stderr := None; output_artifact := NoArtifact |}.
Proof. split; [reflexivity|]. split; vm_compute; reflexivity. Qed.

(** C10. There is a response without "no such manifest" in its error
    stream whose payload is JSON (the reference decoder decodes it), with a
    manifest entry that has no platform, on which the step raises [KeyError]
    instead of returning a result, whatever decoder gives it the document of
    the payload; and the step returns FAILURE for decoding failures only. *)
Theorem check_malformed_manifest_raises :
  (∃ manifest_inspect_stderr manifest_inspect_stdout document,
     no_such_manifest manifest_inspect_stderr = false ∧
     CoreLibrary.loads manifest_inspect_stdout = Some document ∧
     ∀ (library : Library) BUILD_PLATFORMS context,
       json_loads (str_replace newline EmptyString manifest_inspect_stdout)
         = Some document →
       CheckConnectorImageDoesNotExist._run BUILD_PLATFORMS context
         manifest_inspect_stderr manifest_inspect_stdout
       = Raise (KeyError "platform")) ∧
  (∀ (library : Library) BUILD_PLATFORMS context
     manifest_inspect_stderr manifest_inspect_stdout r,
     CheckConnectorImageDoesNotExist._run BUILD_PLATFORMS context
       manifest_inspect_stderr manifest_inspect_stdout = Ok r →
     status r = FAILURE →
     json_loads (str_replace newline EmptyString manifest_inspect_stdout) = None).
Proof.
  split.
  - exists EmptyString, no_platform_stdout.
    eexists. split; [reflexivity|]. split; [vm_compute; reflexivity|].
    intros library BUILD_PLATFORMS context Hloads.
    unfold CheckConnectorImageDoesNotExist._run, loads.
    rewrite Hloads. reflexivity.
  - intros library BUILD_PLATFORMS context e o r Hrun Hstatus.
    by destruct (check_failure_only_from_decoding _ _ _ _ _ Hrun Hstatus).
Qed.

(** The same with the reference decoder, run. *)
Example check_no_platform_raises :
  CheckConnectorImageDoesNotExist._run example_platforms (example_context false)
    EmptyString no_platform_stdout
  = Raise (KeyError "platform").
Proof. reflexivity. Qed.

(** ** BuildConnectorForPublish *)

Section build_connector_for_publish.
Import BuildConnectorForPublish.
Implicit Types builds before after : list (string * StepResult).

Lemma find_not_success_all_succeeded builds :
  Forall succeeded builds →
  find (λ r, bool_decide (status r ≠ SUCCESS)) (map snd builds) = None.
Proof.
  induction 1 as [|[platform r] builds Hr _ IH]; simpl; [done|].
  unfold succeeded in Hr. simpl in Hr.
  by rewrite bool_decide_eq_false_2; [|intros Hne; apply Hne].
Qed.

Lemma find_not_success_first before platform failed after :
  Forall succeeded before →
  status failed ≠ SUCCESS →
  find (λ r, bool_decide (status r ≠ SUCCESS))
       (map snd (before ++ (platform, failed) :: after)) = Some failed.
Proof.
  intros Hbefore Hfailed.
  induction Hbefore as [|[platform' r] before Hr _ IH]; simpl.
  - by rewrite bool_decide_eq_true_2.
  - unfold succeeded in Hr. simpl in Hr.
    by rewrite bool_decide_eq_false_2; [|intros Hne; apply Hne].
Qed.

(** The builds up to the first that did not succeed. *)
Lemma first_not_succeeded builds :
  Exists (λ build, ¬ succeeded build) builds →
  ∃ before platform failed after,
    builds = before ++ (platform, failed) :: after ∧
    Forall succeeded before ∧ status failed ≠ SUCCESS.
Proof.
  induction builds as [|[platform r] builds IH]; intros Hex.
  - by apply Exists_nil in Hex.
  - destruct (decide (status r = SUCCESS)) as [Hr|Hr].
    + apply Exists_cons in Hex as [Hhere|Hlater]; [done|].
      destruct (IH Hlater) as (before & p & failed & after & -> & Hbefore & Hf).
      exists ((platform, r) :: before), p, failed, after.
      split; [done|]. split; [|done]. by constructor.
    + by exists [], platform, r, builds.
Qed.

(** C6. When the build of some platform did not succeed, the step returns
    the result of the first such build of the iteration, as it is, and
    what it returns does not depend on the results that come after it. *)
Theorem build_returns_first_not_succeeded builds :
  Exists (λ build, ¬ succeeded build) builds →
  ∃ before platform failed after,
    builds = before ++ (platform, failed) :: after ∧
    Forall succeeded before ∧ status failed ≠ SUCCESS ∧
    _run builds = failed ∧
    ∀ later, _run (before ++ (platform, failed) :: later) = failed.
Proof.
  intros (before & platform & failed & after & -> & Hbefore & Hfailed)
    %first_not_succeeded.
  exists before, platform, failed, after.
  repeat split; try done; [|intros later]; unfold _run;
    by rewrite find_not_success_first.
Qed.

(** C7. When the builds of all the platforms succeeded, the step returns
    SUCCESS with the list of their artifacts, the artifact at each position
    being that of the platform at this position of the builds. *)
Theorem build_all_succeeded_keeps_order builds :
  Forall succeeded builds →
  ∃ artifacts,
    _run builds
    = {| step := self; status := SUCCESS; stdout := None; stderr := None;
         output_artifact := ListArtifact artifacts |} ∧
    length artifacts = length builds ∧
    ∀ i platform r,
      builds !! i = Some (platform, r) → artifacts !! i = Some (output_artifact r).
Proof.
  intros Hall. exists (map output_artifact (map snd builds)).
  split; [|split].
  - unfold _run. by rewrite find_not_success_all_succeeded.
  - by rewrite !length_map.
  - intros i platform r Hi.
    by rewrite !list_lookup_fmap, Hi.
Qed.

(** In particular, when the dict holds the build of each platform of a list
    under this platform, in the order of the list, the artifacts come in the
    order of the list. *)
Corollary build_all_succeeded_requested_order
    (platforms : list string) (build : string → StepResult) :
  (∀ platform, platform ∈ platforms → status (build platform) = SUCCESS) →
  _run ((λ platform, (platform, build platform)) <$> platforms)
  = {| step := self; status := SUCCESS; stdout := None; stderr := None;
       output_artifact := ListArtifact (output_artifact ∘ build <$> platforms) |}.
Proof.
  intros Hall. unfold _run.
  rewrite find_not_success_all_succeeded.
  - by rewrite <- !list_fmap_compose.
  - apply Forall_fmap, Forall_forall. intros platform Hplatform.
    by apply Hall.
Qed.
End build_connector_for_publish.

Example build_three_platforms_second_failed :
  BuildConnectorForPublish._run
    [("linux/amd64", built "linux/amd64"); ("linux/arm64", not_built "linux/arm64");
     ("linux/arm/v7", not_built "linux/arm/v7")]
  = not_built "linux/arm64".
Proof. reflexivity. Qed.

Example build_two_platforms :
  BuildConnectorForPublish._run
    [("linux/amd64", built "linux/amd64"); ("linux/arm64", built "linux/arm64")]
  = {| step := BuildConnectorForPublishStep; status := SUCCESS;
       stdout := None; stderr := None;
       output_artifact := ListArtifact [ContainerArtifact amd64;
                                        ContainerArtifact arm64] |}.
Proof. reflexivity. Qed.

Lemma build_returns_first_not_succeeded_witness :
  Exists (λ build, ¬ succeeded build)
    [("linux/amd64", built "linux/amd64"); ("linux/arm64", not_built "linux/arm64");
     ("linux/arm/v7", not_built "linux/arm/v7")] ∧
  ∃ before platform failed after,
    [("linux/amd64", built "linux/amd64"); ("linux/arm64", not_built "linux/arm64");
     ("linux/arm/v7", not_built "linux/arm/v7")]
    = before ++ (platform, failed) :: after ∧
    Forall succeeded before ∧ status failed ≠ SUCCESS ∧
    BuildConnectorForPublish._run
      [("linux/amd64", built "linux/amd64"); ("linux/arm64", not_built "linux/arm64");
       ("linux/arm/v7", not_built "linux/arm/v7")] = failed ∧
    ∀ later,
      BuildConnectorForPublish._run (before ++ (platform, failed) :: later) = failed.
Proof.
  assert (Exists (λ build, ¬ succeeded build)
            [("linux/amd64", built "linux/amd64");
             ("linux/arm64", not_built "linux/arm64");
             ("linux/arm/v7", not_built "linux/arm/v7")]) as Hex.
  { apply Exists_cons_tl, Exists_cons_hd. unfold succeeded. simpl. discriminate. }
  split; [exact Hex|].
  exact (build_returns_first_not_succeeded _ Hex).
Defined.

Lemma build_all_succeeded_keeps_order_witness :
  Forall succeeded
    [("linux/amd64", built "linux/amd64"); ("linux/arm64", built "linux/arm64")] ∧
  ∃ artifacts,
    BuildConnectorForPublish._run
      [("linux/amd64", built "linux/amd64"); ("linux/arm64", built "linux/arm64")]
    = {| step := BuildConnectorForPublish.self; status := SUCCESS;
         stdout := None; stderr := None;
         output_artifact := ListArtifact artifacts |} ∧
    length artifacts = 2 ∧
    ∀ i platform r,
      [("linux/amd64", built "linux/amd64"); ("linux/arm64", built "linux/arm64")]
        !! i = Some (platform, r) →
      artifacts !! i = Some (output_artifact r).
Proof.
  assert (Forall succeeded
            [("linux/amd64", built "linux/amd64");
             ("linux/arm64", built "linux/arm64")]) as Hall.
  { repeat constructor. }
  split; [exact Hall|].
  exact (build_all_succeeded_keeps_order _ Hall).
Defined.

(** ** PushConnectorImageToRegistry *)

Section push_connector_image_to_registry.
Import PushConnectorImageToRegistry.
Context {library : Library} {services : Services}.
Variable context : PublishConnectorContext.

Local Abbreviation versioned := ("docker.io/" +:+ docker_image_name context).

(** C8, as amended. For an artifact set that is not empty, with [primary]
    its first artifact and [variants] the others:
    - when the pre-release flag is true, the step makes one publish call,
      of [primary] with [variants] under the versioned reference;
    - when it is false and the metadata give the repository, the step makes
      this call and, if the call returns, a second one of the same
      [primary] and [variants] under the latest reference of the
      repository; if the first call raises, it stays the only one. *)
Theorem push_publish_calls primary variants :
  (pre_release context = true →
   log_of (_run context (primary :: variants))
   = [Publish primary versioned variants]) ∧
  (pre_release context = false →
   ∀ repository, metadata context !! "dockerRepository" = Some repository →
     (∀ image_ref, publish primary versioned variants = Ok image_ref →
        log_of (_run context (primary :: variants))
        = [Publish primary versioned variants;
           Publish primary ("docker.io/" +:+ fstr repository +:+ ":latest")
             variants]) ∧
     (∀ e, publish primary versioned variants = Raise e →
        log_of (_run context (primary :: variants))
        = [Publish primary versioned variants])).
Proof.
  split.
  - intros Hpre. unfold _run, do_publish, latest_docker_image_name.
    rewrite Hpre. simpl.
    destruct (publish primary versioned variants) as [image_ref|e]; simpl;
      [done|]. by case_bool_decide.
  - intros Hpre repository Hrepository.
    unfold _run, do_publish, latest_docker_image_name.
    rewrite Hpre, Hrepository. simpl. split.
    + intros image_ref ->. simpl.
      destruct (publish primary _ variants) as [latest_ref|e]; simpl; [done|].
      by case_bool_decide.
    + intros e ->. simpl. by case_bool_decide.
Qed.

(** An empty artifact set makes the step raise before any call. *)
Lemma push_nothing_raises :
  _run context [] = ([], Raise (IndexError "list index out of range")).
Proof. reflexivity. Qed.

(** Without the repository in the metadata, a release that is not a
    pre-release raises [KeyError] after the first publish. *)
Lemma push_no_repository_raises primary variants image_ref :
  pre_release context = false →
  metadata context !! "dockerRepository" = None →
  publish primary versioned variants = Ok image_ref →
  _run context (primary :: variants)
  = ([Publish primary versioned variants], Raise (KeyError "dockerRepository")).
Proof.
  intros Hpre Hrepository Hpublish.
  unfold _run, do_publish, latest_docker_image_name.
  rewrite Hpre, Hrepository. simpl. by rewrite Hpublish.
Qed.

(** A [QueryError] of the registry becomes a FAILURE with its text. *)
Lemma push_query_error_failure primary variants msg :
  publish primary versioned variants = Raise (QueryError msg) →
  outcome (_run context (primary :: variants))
  = Ok {| step := self; status := FAILURE; stdout := None; stderr := Some msg;
          output_artifact := NoArtifact |}.
Proof.
  intros Hpublish. unfold _run, do_publish. simpl. by rewrite Hpublish.
Qed.
End push_connector_image_to_registry.

(** C8, as stated, fails: with the pre-release flag false and a registry
    that refuses the first publish, the step makes one publish call, not
    two. *)
Lemma push_two_calls_counterexample :
  pre_release (example_context false) = false ∧
  log_of (PushConnectorImageToRegistry._run
            (services := registry_down_services)
            (example_context false) [amd64; arm64])
  = [Publish amd64 "docker.io/airbyte/source-faker:0.1.4" [arm64]].
Proof. split; reflexivity. Qed.

Lemma push_publish_calls_witness :
  log_of (PushConnectorImageToRegistry._run
            (services := equal_specs_services)
            (example_context true) [amd64; arm64])
  = [Publish amd64 "docker.io/airbyte/source-faker:0.1.4" [arm64]] ∧
  log_of (PushConnectorImageToRegistry._run
            (services := equal_specs_services)
            (example_context false) [amd64; arm64])
  = [Publish amd64 "docker.io/airbyte/source-faker:0.1.4" [arm64];
     Publish amd64 "docker.io/airbyte/source-faker:latest" [arm64]].
Proof.
  split.
  - apply (push_publish_calls
             (services := equal_specs_services)
             (example_context true) amd64 [arm64]).
    reflexivity.
  - apply (proj2 (push_publish_calls
             (services := equal_specs_services)
             (example_context false) amd64 [arm64]) eq_refl
             (JStr "airbyte/source-faker") eq_refl)
      with (image_ref := "docker.io/airbyte/source-faker:0.1.4@sha256:0c").
    reflexivity.
Defined.

(** ** UploadSpecToCache *)

Section upload_spec_to_cache.
Import UploadSpecToCache.
Context {library : Library} {services : Services}.
Variable context : PublishConnectorContext.

Local Abbreviation bucket := (spec_cache_bucket_name context).
Local Abbreviation credentials := (spec_cache_gcs_credentials_secret context).

(** *** The keys *)

Lemma str_replace_app old new s1 s2 :
  str_replace old new (s1 +:+ s2)
  = str_replace old new s1 +:+ str_replace old new s2.
Proof.
  induction s1 as [|c s1 IH]; simpl; [done|].
  destruct (Ascii.eqb c old); rewrite IH; [|done].
  by rewrite str_app_assoc.
Qed.

Lemma str_replace_absent old new s :
  old ∉ list_ascii_of_string s → str_replace old new s = s.
Proof.
  induction s as [|c s IH]; simpl; [done|].
  intros Hnotin. apply not_elem_of_cons in Hnotin as [Hne Hnotin].
  destruct (Ascii.eqb_spec c old) as [->|_]; [done|]. by rewrite IH.
Qed.

(** X13. For an image [repository:tag], the OSS spec goes under
    [specs/repository/tag/spec.json] and the CLOUD spec is meant for
    [specs/repository/tag/spec.cloud.json]. *)
Lemma spec_keys repository tag :
  docker_image_name context = repository +:+ ":" +:+ tag →
  ":"%char ∉ list_ascii_of_string repository →
  ":"%char ∉ list_ascii_of_string tag →
  oss_spec_key context = "specs/" +:+ repository +:+ "/" +:+ tag +:+ "/spec.json" ∧
  cloud_spec_key context
  = "specs/" +:+ repository +:+ "/" +:+ tag +:+ "/spec.cloud.json".
Proof.
  intros Hname Hrepository Htag.
  unfold oss_spec_key, cloud_spec_key, spec_key_prefix.
  rewrite Hname, str_replace_app, (str_replace_app _ _ ":" tag).
  rewrite (str_replace_absent _ _ repository Hrepository).
  rewrite (str_replace_absent _ _ tag Htag).
  change (str_replace ":" "/" ":") with "/".
  rewrite !str_app_assoc. split; reflexivity.
Qed.

Lemma spec_keys_differ : oss_spec_key context ≠ cloud_spec_key context.
Proof.
  unfold oss_spec_key, cloud_spec_key.
  generalize (spec_key_prefix context). intros prefix.
  induction prefix as [|c prefix IH]; simpl; [done|].
  intros [= Heq]. by apply IH.
Qed.

(** *** The extraction of the spec *)

Lemma parse_line_no_spec line :
  (∀ v, json_loads line = Some v → ¬ is_spec_record v) →
  parse_line line = Ok None ∨
  ∃ msg, parse_line line = Raise (TypeError msg).
Proof.
  intros Hno. unfold parse_line, loads.
  destruct (json_loads line) as [v|] eqn:Hloads; [|by left].
  specialize (Hno v eq_refl).
  destruct v; simpl; try (right; by eexists).
  destruct (dict_lookup "type" members) as [type|] eqn:Htype; simpl; [|by left].
  destruct type; simpl; try by left.
  destruct (String.eqb_spec s "SPEC") as [->|_]; [|by left].
  destruct Hno. by exists members.
Qed.

Lemma for_each_parse_line_no_spec (lines : list string) :
  (∀ line v, line ∈ lines → json_loads line = Some v → ¬ is_spec_record v) →
  for_each lines parse_line = Ok None ∨
  ∃ msg, for_each lines parse_line = Raise (TypeError msg).
Proof.
  induction lines as [|line lines IH]; intros Hno; simpl; [by left|].
  destruct (parse_line_no_spec line) as [->|[msg ->]].
  - intros v. apply Hno. by left.
  - apply IH. intros l v Hl. apply Hno. by right.
  - right. by exists msg.
Qed.

(** Without a line of type SPEC in the output, the extraction raises: the
    error of the step, or a [TypeError] when a line before the end decodes
    to a value that is not an object. *)
Lemma _parse_spec_output_no_spec spec_output :
  no_spec_line spec_output →
  _parse_spec_output spec_output
  = Raise (InvalidSpecOutputError
             "Could not parse the output of the spec command.") ∨
  ∃ msg, _parse_spec_output spec_output = Raise (TypeError msg).
Proof.
  intros Hno. unfold _parse_spec_output.
  destruct (for_each_parse_line_no_spec (str_split newline spec_output) Hno)
    as [->|[msg ->]]; [by left|right; by exists msg].
Qed.

(** The step does not turn this error into a result: [_run] raises it,
    after the one run of the connector and before any upload. *)
Lemma _run_no_spec built_connector spec_output :
  spec_stdout built_connector "OSS" = Ok spec_output →
  no_spec_line spec_output →
  ∃ e, _run context built_connector = ([ExecSpec built_connector "OSS"], Raise e) ∧
       (e = InvalidSpecOutputError
              "Could not parse the output of the spec command." ∨
        class_of e = CTypeError).
Proof.
  intros Hstdout Hno. unfold _run, _get_connector_spec, call_result.
  rewrite Hstdout. simpl.
  destruct (_parse_spec_output_no_spec _ Hno) as [->|[msg ->]]; simpl;
    eexists; (split; [reflexivity|]); [by left|by right].
Qed.

(** *** The uploads *)

Lemma _get_connector_spec_ok connector deployment_mode spec_output spec :
  spec_stdout connector deployment_mode = Ok spec_output →
  _parse_spec_output spec_output = Ok spec →
  _get_connector_spec connector deployment_mode
  = ([ExecSpec connector deployment_mode], Ok spec).
Proof.
  intros Hstdout Hparse. unfold _get_connector_spec, call_result.
  rewrite Hstdout. simpl. by rewrite Hparse.
Qed.

(** With the same spec for the two deployments, the step makes one upload,
    of the OSS spec under the OSS key. *)
Lemma _run_equal_specs built_connector spec :
  _get_connector_spec built_connector "OSS"
    = ([ExecSpec built_connector "OSS"], Ok spec) →
  _get_connector_spec built_connector "CLOUD"
    = ([ExecSpec built_connector "CLOUD"], Ok spec) →
  log_of (_run context built_connector)
  = [ExecSpec built_connector "OSS"; ExecSpec built_connector "CLOUD";
     UploadToGcs (_get_spec_as_file spec "spec_to_cache.json")
       (oss_spec_key context) bucket credentials].
Proof.
  intros Hoss Hcloud. unfold _run. rewrite Hoss, Hcloud. simpl.
  rewrite String.eqb_refl. simpl.
  destruct (upload_to_gcs _ _ _ _) as [[exit_code out] err]. simpl.
  by case_bool_decide.
Qed.

(** With two specs that differ, the step raises before any upload:
    [append] is called with two arguments. *)
Lemma _run_differing_specs built_connector oss_spec cloud_spec :
  _get_connector_spec built_connector "OSS"
    = ([ExecSpec built_connector "OSS"], Ok oss_spec) →
  _get_connector_spec built_connector "CLOUD"
    = ([ExecSpec built_connector "CLOUD"], Ok cloud_spec) →
  oss_spec ≠ cloud_spec →
  _run context built_connector
  = ([ExecSpec built_connector "OSS"; ExecSpec built_connector "CLOUD"],
     Raise (TypeError "list.append() takes exactly one argument (2 given)")).
Proof.
  intros Hoss Hcloud Hne. unfold _run. rewrite Hoss, Hcloud. simpl.
  by destruct (String.eqb_spec oss_spec cloud_spec).
Qed.
End upload_spec_to_cache.

(** C1 fails on the code. The connector prints two specs that differ; the
    step extracts them, then raises [TypeError] from the call of [append]
    with two arguments: nothing is uploaded, where the claim has two
    uploads. *)
Theorem upload_spec_differing_specs_raises :
  ∃ oss_spec cloud_spec,
    UploadSpecToCache._get_connector_spec
      (services := differing_specs_services) amd64 "OSS"
      = ([ExecSpec amd64 "OSS"], Ok oss_spec) ∧
    UploadSpecToCache._get_connector_spec
      (services := differing_specs_services) amd64 "CLOUD"
      = ([ExecSpec amd64 "CLOUD"], Ok cloud_spec) ∧
    oss_spec ≠ cloud_spec ∧
    UploadSpecToCache._run (services := differing_specs_services)
      (example_context false) amd64
    = ([ExecSpec amd64 "OSS"; ExecSpec amd64 "CLOUD"],
       Raise (TypeError "list.append() takes exactly one argument (2 given)")) ∧
    uploaded_keys
      (log_of (UploadSpecToCache._run (services := differing_specs_services)
                 (example_context false) amd64))
    = [].
Proof.
  eexists _, _.
  split; [vm_compute; reflexivity|]. split; [vm_compute; reflexivity|].
  split; [discriminate|]. split; vm_compute; reflexivity.
Qed.

(** With the same spec for the two deployments, there is the one upload. *)
Example upload_spec_equal_specs_one_upload :
  uploaded_keys
    (log_of (UploadSpecToCache._run (services := equal_specs_services)
               (example_context false) amd64))
  = ["specs/airbyte/source-faker/0.1.4/spec.json"] ∧
  outcome (UploadSpecToCache._run (services := equal_specs_services)
             (example_context false) amd64)
  = Ok {| step := UploadSpecToCacheStep; status := SUCCESS; stdout := None;
          stderr := None; output_artifact := NoArtifact |}.
Proof. split; vm_compute; reflexivity. Qed.

(** C2 fails on the code. The connector prints no record of type SPEC; the
    step raises [InvalidSpecOutputError], where the claim has it return a
    FAILURE. *)
Theorem upload_spec_invalid_output_raises :
  spec_stdout (Services := no_spec_services) amd64 "OSS"
    = Ok (spec_lines trace_line) ∧
  no_spec_line (spec_lines trace_line) ∧
  UploadSpecToCache._run (services := no_spec_services)
    (example_context false) amd64
  = ([ExecSpec amd64 "OSS"],
     Raise (InvalidSpecOutputError
              "Could not parse the output of the spec command.")).
Proof.
  split; [reflexivity|]. split; [|vm_compute; reflexivity].
  intros line v Hline Hloads (members & -> & Htype).
  set (lines := str_split newline (spec_lines trace_line)) in Hline.
  vm_compute in lines. subst lines.
  repeat (apply elem_of_cons in Hline as [->|Hline]);
    [vm_compute in Hloads; simplify_eq; vm_compute in Htype; discriminate..|].
  by apply elem_of_nil in Hline.
Qed.

(** ** The pipeline *)

Section run_connector_publish_pipeline.

(** What the pipeline does, by the status of the last result of the steps
    before publishing. *)
Lemma pipeline_skipped {runner : Runner} last_result :
  item_last (run_steps steps_before_ready_to_publish []) = Ok last_result →
  status last_result = SKIPPED →
  run_connector_publish_pipeline
  = ([RunSteps steps_before_ready_to_publish []; Run MetadataUploadStep],
     Ok (report (run_steps steps_before_ready_to_publish []
                 ++ [run MetadataUploadStep]))).
Proof.
  intros Hlast Hstatus. unfold run_connector_publish_pipeline, do_run_steps.
  simpl. rewrite Hlast. simpl. rewrite Hstatus. done.
Qed.

Lemma pipeline_failed {runner : Runner} last_result :
  item_last (run_steps steps_before_ready_to_publish []) = Ok last_result →
  status last_result = FAILURE →
  run_connector_publish_pipeline
  = ([RunSteps steps_before_ready_to_publish []],
     Ok (report (run_steps steps_before_ready_to_publish []))).
Proof.
  intros Hlast Hstatus. unfold run_connector_publish_pipeline, do_run_steps.
  simpl. rewrite Hlast. simpl. rewrite Hstatus. done.
Qed.

Lemma pipeline_ready_builds {runner : Runner} last_result :
  item_last (run_steps steps_before_ready_to_publish []) = Ok last_result →
  status last_result = SUCCESS →
  ∃ log, log_of run_connector_publish_pipeline
         = RunSteps steps_before_ready_to_publish []
             :: Run BuildConnectorForPublishStep :: log.
Proof.
  intros Hlast Hstatus. unfold run_connector_publish_pipeline, do_run_steps.
  simpl. rewrite Hlast. simpl. rewrite Hstatus. simpl.
  case_bool_decide; [by eexists|].
  destruct (artifact_item0 _); simpl; by eexists.
Qed.

Lemma pipeline_no_result_raises {runner : Runner} e :
  item_last (run_steps steps_before_ready_to_publish []) = Raise e →
  run_connector_publish_pipeline
  = ([RunSteps steps_before_ready_to_publish []], Raise e).
Proof.
  intros Hlast. unfold run_connector_publish_pipeline, do_run_steps.
  simpl. by rewrite Hlast.
Qed.

(** C9. When the last result of the steps before publishing is SKIPPED,
    the pipeline runs the upload of the metadata and returns the report of
    these results followed by the result of the upload; the steps it
    dispatches are the validation of the metadata, the check of the image
    and the upload of the metadata, so that the build, the upload of the
    spec and the push are not run. And whatever the steps answer, a run
    that dispatches the upload of the metadata and not the build is one
    whose last result before publishing is SKIPPED. *)
Theorem pipeline_skipped_uploads_metadata_only {runner : Runner} last_result :
  item_last (run_steps steps_before_ready_to_publish []) = Ok last_result →
  status last_result = SKIPPED →
  outcome run_connector_publish_pipeline
  = Ok (report (run_steps steps_before_ready_to_publish []
                ++ [run MetadataUploadStep])) ∧
  dispatched (log_of run_connector_publish_pipeline)
  = [MetadataValidationStep; CheckConnectorImageDoesNotExistStep;
     MetadataUploadStep] ∧
  ∀ other : Runner,
    MetadataUploadStep
      ∈ dispatched (log_of (@run_connector_publish_pipeline other)) →
    BuildConnectorForPublishStep
      ∉ dispatched (log_of (@run_connector_publish_pipeline other)) →
    ∃ skipped,
      item_last (@run_steps other steps_before_ready_to_publish [])
        = Ok skipped ∧
      status skipped = SKIPPED.
Proof.
  intros Hlast Hstatus.
  rewrite (pipeline_skipped _ Hlast Hstatus). split; [done|]. split; [done|].
  intros other Hupload Hbuild.
  destruct (item_last (@run_steps other steps_before_ready_to_publish []))
    as [last_other|e] eqn:Hother.
  - exists last_other. split; [done|].
    destruct (status last_other) eqn:Hstatus_other; [| |done].
    + destruct (pipeline_ready_builds _ Hother Hstatus_other) as [log Hlog].
      rewrite Hlog in Hbuild. destruct Hbuild. simpl.
      do 2 apply list_elem_of_further. apply list_elem_of_here.
    + rewrite (pipeline_failed _ Hother Hstatus_other) in Hupload.
      simpl in Hupload. rewrite !elem_of_cons, elem_of_nil in Hupload.
      by destruct Hupload as [?|[?|[]]].
  - rewrite (pipeline_no_result_raises _ Hother) in Hupload.
    simpl in Hupload. rewrite !elem_of_cons, elem_of_nil in Hupload.
    by destruct Hupload as [?|[?|[]]].
Qed.
End run_connector_publish_pipeline.

Lemma pipeline_skipped_uploads_metadata_only_witness :
  item_last (run_steps (Runner := example_runner SKIPPED)
               steps_before_ready_to_publish [])
    = Ok (example_result SKIPPED CheckConnectorImageDoesNotExistStep) ∧
  status (example_result SKIPPED CheckConnectorImageDoesNotExistStep) = SKIPPED ∧
  outcome (run_connector_publish_pipeline (runner := example_runner SKIPPED))
  = Ok (report [example_result SKIPPED MetadataValidationStep;
                example_result SKIPPED CheckConnectorImageDoesNotExistStep;
                example_result SKIPPED MetadataUploadStep]) ∧
  dispatched
    (log_of (run_connector_publish_pipeline (runner := example_runner SKIPPED)))
  = [MetadataValidationStep; CheckConnectorImageDoesNotExistStep;
     MetadataUploadStep].
Proof.
  split; [reflexivity|]. split; [reflexivity|].
  destruct (pipeline_skipped_uploads_metadata_only
              (runner := example_runner SKIPPED)
              (example_result SKIPPED CheckConnectorImageDoesNotExistStep)
              eq_refl eq_refl) as (Houtcome & Hdispatched & _).
  split; [exact Houtcome|exact Hdispatched].
Defined.

(** The three ways through the pipeline, run. *)
Example pipeline_already_published :
  run_connector_publish_pipeline (runner := example_runner SKIPPED)
  = ([RunSteps steps_before_ready_to_publish []; Run MetadataUploadStep],
     Ok (report [example_result SKIPPED MetadataValidationStep;
                 example_result SKIPPED CheckConnectorImageDoesNotExistStep;
                 example_result SKIPPED MetadataUploadStep])).
Proof. reflexivity. Qed.

Example pipeline_check_failed :
  run_connector_publish_pipeline (runner := example_runner FAILURE)
  = ([RunSteps steps_before_ready_to_publish []],
     Ok (report [example_result FAILURE MetadataValidationStep;
                 example_result FAILURE CheckConnectorImageDoesNotExistStep])).
Proof. reflexivity. Qed.

Example pipeline_publishes :
  dispatched
    (log_of (run_connector_publish_pipeline (runner := example_runner SUCCESS)))
  = [MetadataValidationStep; CheckConnectorImageDoesNotExistStep;
     BuildConnectorForPublishStep; UploadSpecToCacheStep;
     PushConnectorImageToRegistryStep; MetadataUploadStep] ∧
  outcome (run_connector_publish_pipeline (runner := example_runner SUCCESS))
  = Ok (report
          (example_result SUCCESS <$>
             [MetadataValidationStep; CheckConnectorImageDoesNotExistStep;
              BuildConnectorForPublishStep; UploadSpecToCacheStep;
              PushConnectorImageToRegistryStep; MetadataUploadStep])).
Proof. split; reflexivity. Qed.

(** * Further properties of the steps and of the pipeline *)

(** ** CheckConnectorImageDoesNotExist: the other payloads *)

Section check_connector_image_other_payloads.
Import CheckConnectorImageDoesNotExist.
Context {library : Library}.
Variable BUILD_PLATFORMS : list string.
Variable context : PublishConnectorContext.

Local Abbreviation _run := (_run BUILD_PLATFORMS context).
Local Abbreviation stripped := (str_replace newline EmptyString).

Lemma getitem_raises v k e :
  getitem v k = Raise e → class_of e = CKeyError ∨ class_of e = CTypeError.
Proof.
  destruct v; simpl; try (intros [= <-]; by right).
  destruct (dict_lookup k members); [done|]. intros [= <-]. by left.
Qed.

Lemma platform_of_raises manifest e :
  platform_of manifest = Raise e →
  class_of e = CKeyError ∨ class_of e = CTypeError.
Proof.
  unfold platform_of.
  destruct (getitem manifest "platform") as [platform|e1] eqn:Hplatform; simpl;
    [|intros [= <-]; by eapply getitem_raises].
  destruct (getitem platform "os") as [os|e2] eqn:Hos; simpl;
    [|intros [= <-]; by eapply getitem_raises].
  destruct (getitem platform "architecture") as [arch|e3] eqn:Harch; simpl;
    [done|intros [= <-]; by eapply getitem_raises].
Qed.

Lemma mapM_platform_of_raises manifests e :
  mapM platform_of manifests = Raise e →
  class_of e = CKeyError ∨ class_of e = CTypeError.
Proof.
  induction manifests as [|manifest manifests IH]; simpl; [done|].
  destruct (platform_of manifest) as [p|e1] eqn:Hp; simpl;
    [|intros [= <-]; by eapply platform_of_raises].
  destruct (mapM platform_of manifests) as [ps|e2]; simpl; [done|].
  intros [= <-]. by apply IH.
Qed.

Lemma available_platforms_of_raises manifests e :
  available_platforms_of manifests = Raise e →
  class_of e = CKeyError ∨ class_of e = CTypeError.
Proof.
  unfold available_platforms_of.
  destruct (iterate manifests) as [items|e1] eqn:Hitems; simpl.
  - destruct (mapM platform_of items) as [ps|e2] eqn:Hps; simpl; [done|].
    intros [= <-]. by eapply mapM_platform_of_raises.
  - intros [= <-]. destruct manifests; simplify_eq/=; by right.
Qed.

Lemma mapM_platform_of_names manifests names :
  mapM platform_of manifests = Ok names →
  ∀ p, p ∈ names → ∃ manifest, manifest ∈ manifests ∧ platform_of manifest = Ok p.
Proof.
  revert names. induction manifests as [|manifest manifests IH]; simpl.
  - intros names [= <-] p Hp. by apply elem_of_nil in Hp.
  - intros names.
    destruct (platform_of manifest) as [name|] eqn:Hname; simpl; [|done].
    destruct (mapM platform_of manifests) as [names'|] eqn:Hnames; simpl; [|done].
    intros [= <-] p [->|Hp]%elem_of_cons.
    + exists manifest. split; [by left|done].
    + destruct (IH names' eq_refl p Hp) as (m & Hm & Hpm).
      exists m. split; [by right|done].
Qed.

(** X1. When the decoder returns a document for the payload, an error that
    leaves the step is a [KeyError], a [TypeError] or an [AttributeError] of
    the lookups in this document: once the payload is decoded, nothing else
    in the step raises. *)
Theorem check_raises_only_lookup_errors
    manifest_inspect_stderr manifest_inspect_stdout document e :
  json_loads (stripped manifest_inspect_stdout) = Some document →
  _run manifest_inspect_stderr manifest_inspect_stdout = Raise e →
  class_of e = CKeyError ∨ class_of e = CTypeError ∨ class_of e = CAttributeError.
Proof.
  intros Hloads. unfold CheckConnectorImageDoesNotExist._run.
  destruct (str_contains _ manifest_inspect_stderr); [done|].
  unfold loads. rewrite Hloads. simpl.
  destruct (dict_get document "manifests" (JArr [])) as [manifests|e1] eqn:Hget;
    simpl.
  - destruct (available_platforms_of manifests) as [available|e2] eqn:Hav; simpl.
    + by case_bool_decide.
    + destruct (available_platforms_of_raises _ _ Hav) as [He|He];
        rewrite bool_decide_eq_false_2
          by (rewrite list_elem_of_singleton, He; done);
        intros [= <-]; auto.
  - destruct document; simplify_eq/=; intros [= <-]; auto.
Qed.

(** X2. When the payload decodes to a value that is not an object (a list,
    a string, a number, null), the step raises [AttributeError]: it returns
    no result. *)
Theorem check_non_object_payload_raises
    manifest_inspect_stderr manifest_inspect_stdout document :
  no_such_manifest manifest_inspect_stderr = false →
  json_loads (stripped manifest_inspect_stdout) = Some document →
  (∀ members, document ≠ JObj members) →
  ∃ msg, _run manifest_inspect_stderr manifest_inspect_stdout
         = Raise (AttributeError msg).
Proof.
  intros Hstderr Hloads Hdocument.
  unfold CheckConnectorImageDoesNotExist._run, no_such_manifest in *.
  rewrite Hstderr. unfold loads. rewrite Hloads.
  destruct document; try (by eexists). by destruct (Hdocument members).
Qed.

(** X3. When the payload decodes to an object without [manifests] (the
    manifest of an image of one platform), the step takes it that no
    platform is published: it returns SUCCESS as soon as one platform is
    required, and SKIPPED only when none is. *)
Theorem check_no_manifest_list
    manifest_inspect_stderr manifest_inspect_stdout members :
  no_such_manifest manifest_inspect_stderr = false →
  json_loads (stripped manifest_inspect_stdout) = Some (JObj members) →
  dict_lookup "manifests" members = None →
  ∃ r, _run manifest_inspect_stderr manifest_inspect_stdout = Ok r ∧
       (status r = SUCCESS ↔ BUILD_PLATFORMS ≠ []) ∧
       (status r = SKIPPED ↔ BUILD_PLATFORMS = []).
Proof.
  intros Hstderr Hloads Hmanifests.
  unfold CheckConnectorImageDoesNotExist._run, no_such_manifest in *.
  rewrite Hstderr. unfold loads. rewrite Hloads. simpl. rewrite Hmanifests.
  simpl. change (list_to_set []) with (∅ : gset string).
  destruct BUILD_PLATFORMS as [|p platforms].
  - rewrite bool_decide_eq_true_2 by done.
    eexists. split; [reflexivity|]. simpl. split; split; done.
  - rewrite bool_decide_eq_false_2.
    + eexists. split; [reflexivity|]. simpl. split; split; done.
    + intros Hsub. apply (not_elem_of_empty (C := gset string) p).
      apply Hsub, elem_of_list_to_set. by left.
Qed.

(** X4. The step skips the build only when the registry has a manifest
    for each required platform: a SKIPPED result means that the error stream
    has no "no such manifest", that the payload decodes, and that each
    required platform is the os/architecture of an entry of the manifests of
    the document. *)
Theorem check_skipped_only_if_published
    manifest_inspect_stderr manifest_inspect_stdout r :
  _run manifest_inspect_stderr manifest_inspect_stdout = Ok r →
  status r = SKIPPED →
  no_such_manifest manifest_inspect_stderr = false ∧
  ∃ document manifests entries,
    json_loads (stripped manifest_inspect_stdout) = Some document ∧
    dict_get document "manifests" (JArr []) = Ok manifests ∧
    iterate manifests = Ok entries ∧
    ∀ p, p ∈ BUILD_PLATFORMS →
         ∃ manifest, manifest ∈ entries ∧ platform_of manifest = Ok p.
Proof.
  unfold CheckConnectorImageDoesNotExist._run, no_such_manifest.
  destruct (str_contains _ manifest_inspect_stderr); [by intros [= <-]|].
  unfold loads.
  destruct (json_loads _) as [document|]; [|by intros [= <-]]. simpl.
  destruct (dict_get document "manifests" (JArr [])) as [manifests|e1] eqn:Hget;
    simpl; [|case_bool_decide; [by intros [= <-]|done]].
  unfold available_platforms_of.
  destruct (iterate manifests) as [entries|e2] eqn:Hentries; simpl;
    [|case_bool_decide; [by intros [= <-]|done]].
  destruct (mapM platform_of entries) as [names|e3] eqn:Hnames; simpl;
    [|case_bool_decide; [by intros [= <-]|done]].
  case_bool_decide as Hsub; [|by intros [= <-]].
  intros _ _. split; [done|]. exists document, manifests, entries.
  repeat split; try done.
  intros p Hp. apply (mapM_platform_of_names _ _ Hnames).
  apply subseteq_list_to_set in Hsub. by apply Hsub.
Qed.

(** X5. A registry that publishes more does not bring the build back: when
    the step skips on a manifest list, it returns the same result on every
    manifest list that publishes at least the same platforms, in whatever
    order and however many times. *)
Theorem check_skipped_monotone
    manifest_inspect_stderr stdout1 stdout2 document1 document2
    published1 published2 r :
  no_such_manifest manifest_inspect_stderr = false →
  json_loads (stripped stdout1) = Some document1 →
  publishes document1 published1 →
  json_loads (stripped stdout2) = Some document2 →
  publishes document2 published2 →
  platform_name <$> published1 ⊆ platform_name <$> published2 →
  _run manifest_inspect_stderr stdout1 = Ok r →
  status r = SKIPPED →
  _run manifest_inspect_stderr stdout2 = Ok r.
Proof.
  intros Hstderr Hloads1 (members1 & manifests1 & -> & Hmanifests1 & Hall1)
    Hloads2 (members2 & manifests2 & -> & Hmanifests2 & Hall2) Hsub.
  unfold CheckConnectorImageDoesNotExist._run, no_such_manifest in *.
  rewrite Hstderr. unfold loads. rewrite Hloads1, Hloads2. simpl.
  rewrite Hmanifests1, Hmanifests2. simpl.
  rewrite (available_platforms_of_publishes _ _ Hall1).
  rewrite (available_platforms_of_publishes _ _ Hall2). simpl.
  case_bool_decide as Hsub1; [|by intros [= <-]].
  intros Hr _. rewrite bool_decide_eq_true_2; [done|].
  apply subseteq_list_to_set. apply subseteq_list_to_set in Hsub1.
  by etrans.
Qed.
End check_connector_image_other_payloads.

Lemma check_raises_only_lookup_errors_witness :
  (∃ document,
     json_loads (str_replace newline EmptyString no_platform_stdout)
     = Some document) ∧
  CheckConnectorImageDoesNotExist._run example_platforms (example_context false)
    EmptyString no_platform_stdout = Raise (KeyError "platform") ∧
  (class_of (KeyError "platform") = CKeyError ∨
   class_of (KeyError "platform") = CTypeError ∨
   class_of (KeyError "platform") = CAttributeError).
Proof.
  split; [eexists; vm_compute; reflexivity|]. split; [reflexivity|].
  eapply (check_raises_only_lookup_errors example_platforms
            (example_context false) EmptyString no_platform_stdout _
            (KeyError "platform"));
    [vm_compute; reflexivity | reflexivity].
Defined.

Lemma check_non_object_payload_raises_witness :
  no_such_manifest EmptyString = false ∧
  json_loads (str_replace newline EmptyString list_stdout)
    = Some (JArr [JObj [("platform", JObj [("os", JStr "linux")])]]) ∧
  ∃ msg, CheckConnectorImageDoesNotExist._run example_platforms
           (example_context false) EmptyString list_stdout
         = Raise (AttributeError msg).
Proof.
  split; [reflexivity|]. split; [vm_compute; reflexivity|].
  apply (check_non_object_payload_raises example_platforms (example_context false)
           EmptyString list_stdout
           (JArr [JObj [("platform", JObj [("os", JStr "linux")])]]));
    [reflexivity | vm_compute; reflexivity | discriminate].
Defined.

Lemma check_no_manifest_list_witness :
  no_such_manifest EmptyString = false ∧
  (∃ members,
     json_loads (str_replace newline EmptyString single_platform_stdout)
       = Some (JObj members) ∧
     dict_lookup "manifests" members = None) ∧
  ∃ r, CheckConnectorImageDoesNotExist._run example_platforms
         (example_context false) EmptyString single_platform_stdout = Ok r ∧
       (status r = SUCCESS ↔ example_platforms ≠ []) ∧
       (status r = SKIPPED ↔ example_platforms = []).
Proof.
  split; [reflexivity|].
  split; [eexists; split; vm_compute; reflexivity|].
  eapply (check_no_manifest_list example_platforms (example_context false)
            EmptyString single_platform_stdout);
    [reflexivity | vm_compute; reflexivity | reflexivity].
Defined.

Lemma check_skipped_only_if_published_witness :
  ∃ r,
    CheckConnectorImageDoesNotExist._run example_platforms (example_context false)
      EmptyString two_platforms_stdout = Ok r ∧
    status r = SKIPPED ∧
    no_such_manifest EmptyString = false ∧
    ∃ document manifests entries,
      json_loads (str_replace newline EmptyString two_platforms_stdout)
        = Some document ∧
      dict_get document "manifests" (JArr []) = Ok manifests ∧
      iterate manifests = Ok entries ∧
      ∀ p, p ∈ example_platforms →
           ∃ manifest, manifest ∈ entries ∧
                       CheckConnectorImageDoesNotExist.platform_of manifest = Ok p.
Proof.
  eexists. split; [vm_compute; reflexivity|]. split; [reflexivity|].
  eapply (check_skipped_only_if_published example_platforms (example_context false)
            EmptyString two_platforms_stdout);
    [vm_compute; reflexivity | reflexivity].
Defined.

Lemma check_skipped_monotone_witness :
  ∃ document r,
    no_such_manifest EmptyString = false ∧
    json_loads (str_replace newline EmptyString two_platforms_stdout)
      = Some two_platforms_document ∧
    publishes two_platforms_document [("linux", "amd64"); ("linux", "arm64")] ∧
    json_loads (str_replace newline EmptyString three_platforms_stdout)
      = Some document ∧
    publishes document [("linux", "arm"); ("linux", "arm64"); ("linux", "amd64")] ∧
    platform_name <$> [("linux", "amd64"); ("linux", "arm64")]
      ⊆ platform_name <$> [("linux", "arm"); ("linux", "arm64"); ("linux", "amd64")] ∧
    CheckConnectorImageDoesNotExist._run example_platforms (example_context false)
      EmptyString two_platforms_stdout = Ok r ∧
    status r = SKIPPED ∧
    CheckConnectorImageDoesNotExist._run example_platforms (example_context false)
      EmptyString three_platforms_stdout = Ok r.
Proof.
  assert (publishes two_platforms_document [("linux", "amd64"); ("linux", "arm64")])
    as Hpublishes1.
  { eexists _, _. split; [reflexivity|]. split; [reflexivity|].
    repeat constructor; eexists _, _; repeat split; reflexivity. }
  assert (platform_name <$> [("linux", "amd64"); ("linux", "arm64")]
          ⊆ platform_name <$> [("linux", "arm"); ("linux", "arm64");
                                ("linux", "amd64")]) as Hsub.
  { intros p Hp. simpl in *. rewrite !elem_of_cons in Hp. rewrite !elem_of_cons.
    destruct Hp as [->|[->|Hp]]; [auto..|]. by apply elem_of_nil in Hp. }
  eexists _, _. split; [reflexivity|]. split; [vm_compute; reflexivity|].
  split; [exact Hpublishes1|]. split; [vm_compute; reflexivity|].
  assert (publishes
            (JObj [("manifests",
                    JArr [JObj [("platform", JObj [("architecture", JStr "arm");
                                                   ("os", JStr "linux");
                                                   ("variant", JStr "v7")])];
                          JObj [("platform", JObj [("architecture", JStr "arm64");
                                                   ("os", JStr "linux")])];
                          JObj [("platform", JObj [("architecture", JStr "amd64");
                                                   ("os", JStr "linux")])]])])
            [("linux", "arm"); ("linux", "arm64"); ("linux", "amd64")])
    as Hpublishes2.
  { eexists _, _. split; [reflexivity|]. split; [reflexivity|].
    repeat constructor; eexists _, _; repeat split; reflexivity. }
  split; [exact Hpublishes2|]. split; [exact Hsub|].
  split; [vm_compute; reflexivity|]. split; [reflexivity|].
  eapply (check_skipped_monotone example_platforms (example_context false)
            EmptyString two_platforms_stdout three_platforms_stdout
            two_platforms_document _ _ _ _
            eq_refl);
    [vm_compute; reflexivity | exact Hpublishes1 | vm_compute; reflexivity
    | exact Hpublishes2 | exact Hsub | vm_compute; reflexivity | reflexivity].
Defined.

(** ** BuildConnectorForPublish: the status of the result *)

Section build_connector_for_publish_status.
Import BuildConnectorForPublish.
Implicit Types builds : list (string * StepResult).

Lemma find_not_success_found builds failed :
  find (λ r, bool_decide (status r ≠ SUCCESS)) (map snd builds) = Some failed →
  status failed ≠ SUCCESS.
Proof.
  intros [_ Hfailed]%find_some. by apply bool_decide_eq_true_1 in Hfailed.
Qed.

Lemma find_not_success_none builds :
  find (λ r, bool_decide (status r ≠ SUCCESS)) (map snd builds) = None →
  Forall succeeded builds.
Proof.
  intros Hnone. apply Forall_forall. intros [platform r] Hin.
  unfold succeeded. simpl.
  assert (bool_decide (status r ≠ SUCCESS) = false) as Hr.
  { apply (find_none _ _ Hnone). apply in_map_iff. exists (platform, r).
    split; [done|]. by apply list_elem_of_In. }
  apply bool_decide_eq_false_1 in Hr.
  by destruct (decide (status r = SUCCESS)).
Qed.

(** X6. The step succeeds exactly when the build of every platform
    succeeded: one build that is skipped or that failed makes the result
    other than SUCCESS. *)
Theorem build_success_iff_all_succeeded builds :
  status (_run builds) = SUCCESS ↔ Forall succeeded builds.
Proof.
  unfold _run. split.
  - destruct (find _ (map snd builds)) as [failed|] eqn:Hfind.
    + intros Hstatus. by destruct (find_not_success_found _ _ Hfind).
    + intros _. by apply find_not_success_none.
  - intros Hall. by rewrite find_not_success_all_succeeded.
Qed.

(** X7. When all the builds succeeded, the first artifact of the result,
    which the pipeline hands to the upload of the spec, is the artifact of
    the first platform of the dict; with no platform at all the result is
    still a SUCCESS, and taking its first artifact raises [IndexError]. *)
Theorem build_primary_artifact builds :
  Forall succeeded builds →
  status (_run builds) = SUCCESS ∧
  artifact_item0 (output_artifact (_run builds))
  = match builds with
    | [] => Raise (IndexError "list index out of range")
    | (_, first_build) :: _ => Ok (output_artifact first_build)
    end.
Proof.
  intros Hall. unfold _run. rewrite find_not_success_all_succeeded by done.
  split; [done|]. by destruct builds as [|[platform first_build] builds].
Qed.
End build_connector_for_publish_status.

Lemma build_primary_artifact_witness :
  Forall succeeded
    [("linux/amd64", built "linux/amd64"); ("linux/arm64", built "linux/arm64")] ∧
  status (BuildConnectorForPublish._run
            [("linux/amd64", built "linux/amd64");
             ("linux/arm64", built "linux/arm64")]) = SUCCESS ∧
  artifact_item0
    (output_artifact
       (BuildConnectorForPublish._run
          [("linux/amd64", built "linux/amd64");
           ("linux/arm64", built "linux/arm64")]))
  = Ok (ContainerArtifact amd64).
Proof.
  assert (Forall succeeded
            [("linux/amd64", built "linux/amd64");
             ("linux/arm64", built "linux/arm64")]) as Hall.
  { repeat constructor. }
  split; [exact Hall|].
  exact (build_primary_artifact _ Hall).
Defined.

(** ** PushConnectorImageToRegistry: the results and the errors *)

Section push_connector_image_outcomes.
Import PushConnectorImageToRegistry.
Context {library : Library} {services : Services}.
Variable context : PublishConnectorContext.

Local Abbreviation versioned := ("docker.io/" +:+ docker_image_name context).
Local Abbreviation latest_of repository :=
  ("docker.io/" +:+ fstr repository +:+ ":latest").

(** X8. A [QueryError] never leaves the step, whatever the artifacts, the
    context and the answers of the registry. *)
Theorem push_never_raises_query_error built_containers_per_platform e :
  outcome (_run context built_containers_per_platform) = Raise e →
  class_of e ≠ CQueryError.
Proof.
  unfold _run, do_publish, latest_docker_image_name.
  destruct built_containers_per_platform as [|primary variants]; simpl;
    [by intros [= <-]|].
  destruct (publish primary versioned variants) as [image_ref|e1]; simpl.
  - destruct (pre_release context); simpl; [done|].
    destruct (metadata context !! "dockerRepository") as [repository|]; simpl;
      [|by intros [= <-]].
    destruct (publish primary _ variants) as [latest_ref|e2]; simpl; [done|].
    case_bool_decide as He2; simpl; [done|].
    intros [= <-]. by rewrite list_elem_of_singleton in He2.
  - case_bool_decide as He1; simpl; [done|].
    intros [= <-]. by rewrite list_elem_of_singleton in He1.
Qed.

(** X9. When the release is not a pre-release and the two publishes
    return, the step succeeds and its message gives the reference of the
    latest publish only: the versioned reference is not reported. *)
Theorem push_reports_latest_reference
    primary variants repository versioned_ref latest_ref :
  pre_release context = false →
  metadata context !! "dockerRepository" = Some repository →
  publish primary versioned variants = Ok versioned_ref →
  publish primary (latest_of repository) variants = Ok latest_ref →
  outcome (_run context (primary :: variants))
  = Ok {| step := self; status := SUCCESS;
          stdout := Some ("Published " +:+ latest_ref); stderr := None;
          output_artifact := NoArtifact |}.
Proof.
  intros Hpre Hrepository Hversioned Hlatest.
  unfold _run, do_publish, latest_docker_image_name.
  rewrite Hpre, Hrepository. simpl. rewrite Hversioned. simpl.
  by rewrite Hlatest.
Qed.

(** X10. When the versioned publish returns and the latest publish is
    refused with a [QueryError], the step returns FAILURE with the text of
    the error, after the two calls: the versioned image is published and
    the result does not say so. *)
Theorem push_latest_refused
    primary variants repository versioned_ref msg :
  pre_release context = false →
  metadata context !! "dockerRepository" = Some repository →
  publish primary versioned variants = Ok versioned_ref →
  publish primary (latest_of repository) variants = Raise (QueryError msg) →
  _run context (primary :: variants)
  = ([Publish primary versioned variants;
      Publish primary (latest_of repository) variants],
     Ok {| step := self; status := FAILURE; stdout := None; stderr := Some msg;
           output_artifact := NoArtifact |}).
Proof.
  intros Hpre Hrepository Hversioned Hlatest.
  unfold _run, do_publish, latest_docker_image_name.
  rewrite Hpre, Hrepository. simpl. rewrite Hversioned. simpl.
  by rewrite Hlatest.
Qed.

(** X11. The step returns SUCCESS only when every publish it had to make
    returned: the versioned one and, unless the release is a pre-release,
    the latest one; its message gives the reference of the last of them. *)
Theorem push_success_only_if_published built_containers_per_platform r :
  outcome (_run context built_containers_per_platform) = Ok r →
  status r = SUCCESS →
  ∃ primary variants versioned_ref,
    built_containers_per_platform = primary :: variants ∧
    publish primary versioned variants = Ok versioned_ref ∧
    if pre_release context
    then stdout r = Some ("Published " +:+ versioned_ref)
    else ∃ repository latest_ref,
           metadata context !! "dockerRepository" = Some repository ∧
           publish primary (latest_of repository) variants = Ok latest_ref ∧
           stdout r = Some ("Published " +:+ latest_ref).
Proof.
  unfold _run, do_publish, latest_docker_image_name.
  destruct built_containers_per_platform as [|primary variants]; simpl; [done|].
  destruct (publish primary versioned variants) as [image_ref|e1] eqn:Hversioned;
    simpl.
  - destruct (pre_release context); simpl.
    + intros [= <-] _. by exists primary, variants, image_ref.
    + destruct (metadata context !! "dockerRepository") as [repository|]; simpl;
        [|done].
      destruct (publish primary (latest_of repository) variants)
        as [latest_ref|e2] eqn:Hlatest; simpl.
      * intros [= <-] _. exists primary, variants, image_ref.
        repeat split; try done. by exists repository, latest_ref.
      * case_bool_decide; simpl; [by intros [= <-]|done].
  - case_bool_decide; simpl; [by intros [= <-]|done].
Qed.

(** X12. With a registry that raises nothing but [QueryError], the step
    raises in two cases only: [IndexError] for an empty artifact set, before
    any call, and [KeyError] for metadata without the repository, when the
    release is not a pre-release and the versioned publish returned. *)
Theorem push_raises_only_without_artifact_or_repository
    built_containers_per_platform e :
  (∀ container address platform_variants e',
     publish container address platform_variants = Raise e' →
     class_of e' = CQueryError) →
  outcome (_run context built_containers_per_platform) = Raise e →
  (built_containers_per_platform = [] ∧ class_of e = CIndexError ∧
   log_of (_run context built_containers_per_platform) = []) ∨
  (e = KeyError "dockerRepository" ∧ pre_release context = false ∧
   metadata context !! "dockerRepository" = None ∧
   ∃ primary variants,
     built_containers_per_platform = primary :: variants ∧
     log_of (_run context built_containers_per_platform)
     = [Publish primary versioned variants]).
Proof.
  intros Hregistry. unfold _run, do_publish, latest_docker_image_name.
  destruct built_containers_per_platform as [|primary variants]; simpl;
    [intros [= <-]; by left|].
  destruct (publish primary versioned variants) as [image_ref|e1] eqn:Hversioned;
    simpl.
  - destruct (pre_release context); simpl; [done|].
    destruct (metadata context !! "dockerRepository") as [repository|]; simpl.
    + destruct (publish primary (latest_of repository) variants)
        as [latest_ref|e2] eqn:Hlatest; simpl; [done|].
      rewrite bool_decide_eq_true_2; [done|].
      rewrite list_elem_of_singleton. by eapply Hregistry.
    + intros [= <-]. right. repeat split; try done. by exists primary, variants.
  - rewrite bool_decide_eq_true_2; [done|].
    rewrite list_elem_of_singleton. by eapply Hregistry.
Qed.
End push_connector_image_outcomes.

Lemma push_never_raises_query_error_witness :
  outcome (PushConnectorImageToRegistry._run
             (services := registry_down_services) (example_context false) [])
  = Raise (IndexError "list index out of range") ∧
  class_of (IndexError "list index out of range") ≠ CQueryError.
Proof.
  split; [reflexivity|].
  apply (push_never_raises_query_error (services := registry_down_services)
           (example_context false) []).
  reflexivity.
Defined.

Lemma push_reports_latest_reference_witness :
  pre_release (example_context false) = false ∧
  metadata (example_context false) !! "dockerRepository"
    = Some (JStr "airbyte/source-faker") ∧
  outcome (PushConnectorImageToRegistry._run
             (services := equal_specs_services) (example_context false)
             [amd64; arm64])
  = Ok {| step := PushConnectorImageToRegistry.self; status := SUCCESS;
          stdout := Some "Published docker.io/airbyte/source-faker:latest@sha256:0c";
          stderr := None; output_artifact := NoArtifact |}.
Proof.
  split; [reflexivity|]. split; [reflexivity|].
  apply (push_reports_latest_reference (services := equal_specs_services)
           (example_context false) amd64 [arm64] (JStr "airbyte/source-faker")
           "docker.io/airbyte/source-faker:0.1.4@sha256:0c"
           "docker.io/airbyte/source-faker:latest@sha256:0c");
    reflexivity.
Defined.

Lemma push_latest_refused_witness :
  PushConnectorImageToRegistry._run
    (services := latest_locked_services) (example_context false) [amd64; arm64]
  = ([Publish amd64 "docker.io/airbyte/source-faker:0.1.4" [arm64];
      Publish amd64 "docker.io/airbyte/source-faker:latest" [arm64]],
     Ok {| step := PushConnectorImageToRegistry.self; status := FAILURE;
           stdout := None; stderr := Some "denied: the tag latest is locked";
           output_artifact := NoArtifact |}).
Proof.
  apply (push_latest_refused (services := latest_locked_services)
           (example_context false) amd64 [arm64] (JStr "airbyte/source-faker")
           "docker.io/airbyte/source-faker:0.1.4@sha256:0c"
           "denied: the tag latest is locked");
    reflexivity.
Defined.

Lemma push_success_only_if_published_witness :
  ∃ r,
    outcome (PushConnectorImageToRegistry._run
               (services := equal_specs_services) (example_context true)
               [amd64; arm64]) = Ok r ∧
    status r = SUCCESS ∧
    ∃ primary variants versioned_ref,
      [amd64; arm64] = primary :: variants ∧
      publish (Services := equal_specs_services) primary
        "docker.io/airbyte/source-faker:0.1.4" variants = Ok versioned_ref ∧
      stdout r = Some ("Published " +:+ versioned_ref).
Proof.
  eexists. split; [reflexivity|]. split; [reflexivity|].
  apply (push_success_only_if_published (services := equal_specs_services)
           (example_context true) [amd64; arm64]); reflexivity.
Defined.

Lemma push_raises_only_without_artifact_or_repository_witness :
  (∀ container address platform_variants e',
     publish (Services := registry_down_services)
       container address platform_variants = Raise e' →
     class_of e' = CQueryError) ∧
  outcome (PushConnectorImageToRegistry._run
             (services := registry_down_services) (example_context false) [])
  = Raise (IndexError "list index out of range") ∧
  ((@nil Container = [] ∧
    class_of (IndexError "list index out of range") = CIndexError ∧
    log_of (PushConnectorImageToRegistry._run
              (services := registry_down_services) (example_context false) [])
    = []) ∨
   (IndexError "list index out of range" = KeyError "dockerRepository" ∧
    pre_release (example_context false) = false ∧
    metadata (example_context false) !! "dockerRepository" = None ∧
    ∃ primary variants,
      [] = primary :: variants ∧
      log_of (PushConnectorImageToRegistry._run
                (services := registry_down_services) (example_context false) [])
      = [Publish primary "docker.io/airbyte/source-faker:0.1.4" variants])).
Proof.
  assert (∀ container address platform_variants e',
            publish (Services := registry_down_services)
              container address platform_variants = Raise e' →
            class_of e' = CQueryError) as Hregistry.
  { intros container address platform_variants e' [= <-]. reflexivity. }
  split; [exact Hregistry|]. split; [reflexivity|].
  apply (push_raises_only_without_artifact_or_repository
           (services := registry_down_services) (example_context false) []
           (IndexError "list index out of range") Hregistry).
  reflexivity.
Defined.

(** ** UploadSpecToCache: the keys, the extraction and the upload *)

Section upload_spec_to_cache_more.
Import UploadSpecToCache.
Context {library : Library} {services : Services}.
Variable context : PublishConnectorContext.

Local Abbreviation bucket := (spec_cache_bucket_name context).
Local Abbreviation credentials := (spec_cache_gcs_credentials_secret context).
Local Abbreviation oss_file spec := (_get_spec_as_file spec "spec_to_cache.json").

(** *** The keys *)

Lemma elem_of_str_app c (s1 s2 : string) :
  c ∈ list_ascii_of_string (s1 +:+ s2)
  ↔ c ∈ list_ascii_of_string s1 ∨ c ∈ list_ascii_of_string s2.
Proof.
  induction s1 as [|d s1 IH].
  - change (EmptyString +:+ s2) with s2. simpl. rewrite elem_of_nil. tauto.
  - change (String d s1 +:+ s2) with (String d (s1 +:+ s2)). simpl.
    rewrite !elem_of_cons, IH. tauto.
Qed.

Lemma str_replace_removes old new s :
  old ∉ list_ascii_of_string new →
  old ∉ list_ascii_of_string (str_replace old new s).
Proof.
  intros Hnew. induction s as [|c s IH]; simpl; [apply not_elem_of_nil|].
  destruct (Ascii.eqb_spec c old) as [->|Hne].
  - rewrite elem_of_str_app. tauto.
  - simpl. rewrite elem_of_cons. intros [->|Hin]; [done|]. by apply IH.
Qed.

(** X14. Whatever the name of the image, the two keys are different, both
    are under [specs/], and neither holds a colon: every colon of the name
    of the image has become a slash. *)
Theorem spec_keys_distinct_without_colon :
  oss_spec_key context ≠ cloud_spec_key context ∧
  str_startswith "specs/" (oss_spec_key context) = true ∧
  str_startswith "specs/" (cloud_spec_key context) = true ∧
  (":"%char ∉ list_ascii_of_string (oss_spec_key context)) ∧
  (":"%char ∉ list_ascii_of_string (cloud_spec_key context)).
Proof.
  split; [apply spec_keys_differ|].
  unfold oss_spec_key, cloud_spec_key, spec_key_prefix.
  rewrite !str_app_assoc. split; [apply str_startswith_app|].
  split; [apply str_startswith_app|].
  assert (":"%char ∉ list_ascii_of_string
                       (str_replace ":" "/" (docker_image_name context))) as Hname.
  { apply str_replace_removes. apply (bool_decide_unpack _). by vm_compute. }
  split; rewrite !elem_of_str_app; intros [Hin|[Hin|[Hin|Hin]]]; try done;
    revert Hin; apply (bool_decide_unpack _); by vm_compute.
Qed.

(** *** The extraction of the spec *)

Lemma parse_line_skipped line : skipped_line line → parse_line line = Ok None.
Proof.
  unfold parse_line, loads. intros [->|(members & -> & Htype)]; [done|]. simpl.
  destruct (dict_lookup "type" members) as [type|]; simpl; [|done].
  destruct type; simpl; try done.
  destruct (String.eqb_spec s "SPEC") as [->|]; done.
Qed.

Lemma parse_line_spec_record line v :
  json_loads line = Some v → is_spec_record v →
  parse_line line = Ok (Some (json_dumps v)).
Proof.
  intros Hloads (members & -> & Htype). unfold parse_line, loads.
  rewrite Hloads. simpl. by rewrite Htype.
Qed.

Lemma parse_line_not_object line v :
  json_loads line = Some v → (∀ members, v ≠ JObj members) →
  ∃ msg, parse_line line = Raise (TypeError msg).
Proof.
  intros Hloads Hv. unfold parse_line, loads. rewrite Hloads.
  destruct v; simpl; try by eexists. by destruct (Hv members).
Qed.

Lemma parse_line_found line spec :
  parse_line line = Ok (Some spec) →
  ∃ v, json_loads line = Some v ∧ is_spec_record v ∧ spec = json_dumps v.
Proof.
  unfold parse_line, loads.
  destruct (json_loads line) as [v|]; [|done].
  destruct v; simpl; try done.
  destruct (dict_lookup "type" members) as [type|] eqn:Htype; simpl; [|done].
  destruct type; simpl; try done.
  destruct (String.eqb_spec s "SPEC") as [->|]; [|done].
  intros [= <-]. eexists. split; [done|]. split; [|done]. by exists members.
Qed.

Lemma for_each_found (lines : list string) spec :
  for_each lines parse_line = Ok (Some spec) →
  ∃ line, line ∈ lines ∧ parse_line line = Ok (Some spec).
Proof.
  induction lines as [|line lines IH]; simpl; [done|].
  destruct (parse_line line) as [[found|]|e] eqn:Hline; [| |done].
  - intros [= <-]. exists line. split; [by left|done].
  - intros (l & Hl & Hparse)%IH. exists l. split; [by right|done].
Qed.

Lemma for_each_skipped (before rest : list string) :
  Forall skipped_line before →
  for_each (before ++ rest) parse_line = for_each rest parse_line.
Proof.
  induction 1 as [|line before Hline _ IH]; simpl; [done|].
  by rewrite (parse_line_skipped _ Hline).
Qed.

(** X15. A spec that the extraction returns is the encoding of the record
    of type SPEC that some line of the output decodes to. *)
Theorem parse_returns_spec_record spec_output spec :
  _parse_spec_output spec_output = Ok spec →
  ∃ line v, line ∈ str_split newline spec_output ∧
            json_loads line = Some v ∧ is_spec_record v ∧
            spec = json_dumps v.
Proof.
  unfold _parse_spec_output.
  destruct (for_each _ parse_line) as [[found|]|e] eqn:Hfound; simpl; [|done..].
  intros [= <-].
  destruct (for_each_found _ _ Hfound) as (line & Hline & Hparse).
  destruct (parse_line_found _ _ Hparse) as (v & Hloads & Hv & ->).
  by exists line, v.
Qed.

(** X16. The extraction returns the first record of type SPEC: when the
    lines before a line are passed over and this line decodes to a record of
    type SPEC, the encoding of this record is returned, whatever the lines
    after it are. *)
Theorem parse_first_spec_record spec_output before line after v :
  str_split newline spec_output = before ++ line :: after →
  Forall skipped_line before →
  json_loads line = Some v →
  is_spec_record v →
  _parse_spec_output spec_output = Ok (json_dumps v).
Proof.
  intros Hsplit Hbefore Hloads Hv. unfold _parse_spec_output.
  rewrite Hsplit, (for_each_skipped _ _ Hbefore). simpl.
  by rewrite (parse_line_spec_record _ _ Hloads Hv).
Qed.

(** X17. A line that decodes to a value that is not an object (a number, a
    string, a list, null) is not passed over: when the lines before it are,
    the extraction raises [TypeError], even with a record of type SPEC on a
    line after it. *)
Theorem parse_non_object_line_raises spec_output before line after v :
  str_split newline spec_output = before ++ line :: after →
  Forall skipped_line before →
  json_loads line = Some v →
  (∀ members, v ≠ JObj members) →
  ∃ msg, _parse_spec_output spec_output = Raise (TypeError msg).
Proof.
  intros Hsplit Hbefore Hloads Hv. unfold _parse_spec_output.
  rewrite Hsplit, (for_each_skipped _ _ Hbefore). simpl.
  destruct (parse_line_not_object _ _ Hloads Hv) as [msg ->]. by exists msg.
Qed.

(** *** The run of the step *)

(** X18. Whatever the connector and the services answer, the step makes
    its calls in this order and stops at one of three points: after the run
    of the connector for OSS, after its run for CLOUD, or after one upload,
    which is the upload of the OSS spec under the OSS key. It never makes a
    second upload and never uploads under the CLOUD key. *)
Theorem upload_spec_calls built_connector :
  log_of (_run context built_connector) = [ExecSpec built_connector "OSS"] ∨
  log_of (_run context built_connector)
  = [ExecSpec built_connector "OSS"; ExecSpec built_connector "CLOUD"] ∨
  ∃ oss_spec,
    outcome (_get_connector_spec built_connector "OSS") = Ok oss_spec ∧
    log_of (_run context built_connector)
    = [ExecSpec built_connector "OSS"; ExecSpec built_connector "CLOUD";
       UploadToGcs (oss_file oss_spec) (oss_spec_key context) bucket credentials].
Proof.
  unfold _run, _get_connector_spec, call_result.
  destruct (spec_stdout built_connector "OSS") as [oss_output|e1]; simpl;
    [|by left].
  destruct (_parse_spec_output oss_output) as [oss_spec|e2]; simpl; [|by left].
  destruct (spec_stdout built_connector "CLOUD") as [cloud_output|e3]; simpl;
    [|right; by left].
  destruct (_parse_spec_output cloud_output) as [cloud_spec|e4]; simpl;
    [|right; by left].
  destruct (String.eqb oss_spec cloud_spec); simpl; [|right; by left].
  right. right. exists oss_spec. split; [done|].
  destruct (upload_to_gcs _ _ _ _) as [[exit_code out] err]. simpl.
  by case_bool_decide.
Qed.

(** X19. The step returns a result only after its one upload: the two
    extractions gave the same spec, this spec was uploaded under the OSS
    key, and the result is SUCCESS when the exit code of the upload is 0 and
    otherwise FAILURE with the two streams of the upload. *)
Theorem upload_spec_result_only_after_upload built_connector r :
  outcome (_run context built_connector) = Ok r →
  ∃ spec exit_code out err,
    _get_connector_spec built_connector "OSS"
      = ([ExecSpec built_connector "OSS"], Ok spec) ∧
    _get_connector_spec built_connector "CLOUD"
      = ([ExecSpec built_connector "CLOUD"], Ok spec) ∧
    upload_to_gcs (oss_file spec) (oss_spec_key context) bucket credentials
      = (exit_code, out, err) ∧
    uploaded_keys (log_of (_run context built_connector))
      = [oss_spec_key context] ∧
    r = if bool_decide (exit_code = 0%Z)
        then {| step := self; status := SUCCESS; stdout := None; stderr := None;
                output_artifact := NoArtifact |}
        else {| step := self; status := FAILURE; stdout := Some out;
                stderr := Some err; output_artifact := NoArtifact |}.
Proof.
  unfold _run, _get_connector_spec, call_result.
  destruct (spec_stdout built_connector "OSS") as [oss_output|e1]; simpl; [|done].
  destruct (_parse_spec_output oss_output) as [oss_spec|e2]; simpl; [|done].
  destruct (spec_stdout built_connector "CLOUD") as [cloud_output|e3]; simpl;
    [|done].
  destruct (_parse_spec_output cloud_output) as [cloud_spec|e4]; simpl; [|done].
  destruct (String.eqb_spec oss_spec cloud_spec) as [<-|Hne]; simpl; [|done].
  destruct (upload_to_gcs _ _ _ _) as [[exit_code out] err] eqn:Hupload. simpl.
  intros Hr. exists oss_spec, exit_code, out, err.
  repeat split; try done.
  - by case_bool_decide.
  - case_bool_decide as Hcode; simpl in Hr.
    + rewrite bool_decide_eq_false_2 by (intros ?; done). by injection Hr.
    + rewrite bool_decide_eq_true_2 by done. by injection Hr.
Qed.

(** X20. When the two extractions give the same spec, the result follows
    the exit code of the upload: SUCCESS for 0, and for any other code a
    FAILURE that carries the two streams of the upload. *)
Theorem upload_spec_follows_exit_code built_connector spec exit_code out err :
  outcome (_get_connector_spec built_connector "OSS") = Ok spec →
  outcome (_get_connector_spec built_connector "CLOUD") = Ok spec →
  upload_to_gcs (oss_file spec) (oss_spec_key context) bucket credentials
    = (exit_code, out, err) →
  (exit_code = 0%Z →
   outcome (_run context built_connector)
   = Ok {| step := self; status := SUCCESS; stdout := None; stderr := None;
           output_artifact := NoArtifact |}) ∧
  (exit_code ≠ 0%Z →
   outcome (_run context built_connector)
   = Ok {| step := self; status := FAILURE; stdout := Some out;
           stderr := Some err; output_artifact := NoArtifact |}).
Proof.
  unfold _run, _get_connector_spec, call_result.
  destruct (spec_stdout built_connector "OSS") as [oss_output|e1]; simpl; [|done].
  destruct (_parse_spec_output oss_output) as [oss_spec|e2]; simpl; [|done].
  intros [= ->].
  destruct (spec_stdout built_connector "CLOUD") as [cloud_output|e3]; simpl;
    [|done].
  destruct (_parse_spec_output cloud_output) as [cloud_spec|e4]; simpl; [|done].
  intros [= ->]. rewrite String.eqb_refl. simpl. intros ->. simpl.
  split; intros Hcode.
  - by rewrite bool_decide_eq_false_2 by (intros ?; done).
  - by rewrite bool_decide_eq_true_2.
Qed.

(** X21. An error of the extraction of the OSS spec (of the engine, of the
    output, of a line) leaves the step as it is, after the one run of the
    connector: the connector is not run for CLOUD and nothing is
    uploaded. *)
Theorem upload_spec_oss_extraction_error built_connector e :
  outcome (_get_connector_spec built_connector "OSS") = Raise e →
  _run context built_connector = ([ExecSpec built_connector "OSS"], Raise e).
Proof.
  unfold _run, _get_connector_spec, call_result.
  destruct (spec_stdout built_connector "OSS") as [oss_output|e1]; simpl;
    [|by intros [= <-]].
  destruct (_parse_spec_output oss_output) as [oss_spec|e2]; simpl; [done|].
  by intros [= <-].
Qed.
End upload_spec_to_cache_more.

Lemma spec_keys_witness :
  docker_image_name (example_context false)
    = "airbyte/source-faker" +:+ ":" +:+ "0.1.4" ∧
  (":"%char ∉ list_ascii_of_string "airbyte/source-faker") ∧
  (":"%char ∉ list_ascii_of_string "0.1.4") ∧
  UploadSpecToCache.oss_spec_key (example_context false)
    = "specs/airbyte/source-faker/0.1.4/spec.json" ∧
  UploadSpecToCache.cloud_spec_key (example_context false)
    = "specs/airbyte/source-faker/0.1.4/spec.cloud.json".
Proof.
  assert (":"%char ∉ list_ascii_of_string "airbyte/source-faker") as Hrepository.
  { apply (bool_decide_unpack _). by vm_compute. }
  assert (":"%char ∉ list_ascii_of_string "0.1.4") as Htag.
  { apply (bool_decide_unpack _). by vm_compute. }
  split; [reflexivity|]. split; [exact Hrepository|]. split; [exact Htag|].
  exact (spec_keys (example_context false) "airbyte/source-faker" "0.1.4"
           eq_refl Hrepository Htag).
Defined.

Lemma parse_returns_spec_record_witness :
  ∃ spec,
    UploadSpecToCache._parse_spec_output (spec_lines oss_spec_line) = Ok spec ∧
    ∃ line v, line ∈ str_split newline (spec_lines oss_spec_line) ∧
              json_loads line = Some v ∧ is_spec_record v ∧
              spec = json_dumps v.
Proof.
  eexists. split; [vm_compute; reflexivity|].
  apply (parse_returns_spec_record (spec_lines oss_spec_line)).
  vm_compute; reflexivity.
Defined.

Lemma parse_first_spec_record_witness :
  ∃ v,
    str_split newline (spec_lines oss_spec_line)
      = [log_line] ++ text oss_spec_line :: [EmptyString] ∧
    Forall skipped_line [log_line] ∧
    json_loads (text oss_spec_line) = Some v ∧
    is_spec_record v ∧
    UploadSpecToCache._parse_spec_output (spec_lines oss_spec_line)
      = Ok (json_dumps v).
Proof.
  assert (Forall skipped_line [log_line]) as Hbefore.
  { constructor; [|constructor]. right. eexists.
    split; [vm_compute; reflexivity|]. vm_compute. discriminate. }
  eexists. split; [vm_compute; reflexivity|]. split; [exact Hbefore|].
  split; [vm_compute; reflexivity|].
  split; [eexists; split; reflexivity|].
  eapply (parse_first_spec_record (spec_lines oss_spec_line) [log_line]
            (text oss_spec_line) [EmptyString]);
    [vm_compute; reflexivity | exact Hbefore | vm_compute; reflexivity
    | eexists; split; reflexivity].
Defined.

Lemma parse_non_object_line_raises_witness :
  str_split newline number_then_spec_output
    = [] ++ "42" :: [text oss_spec_line; EmptyString] ∧
  Forall skipped_line [] ∧
  json_loads "42" = Some (JInt 42) ∧
  ∃ msg, UploadSpecToCache._parse_spec_output number_then_spec_output
         = Raise (TypeError msg).
Proof.
  split; [vm_compute; reflexivity|]. split; [constructor|].
  split; [vm_compute; reflexivity|].
  apply (parse_non_object_line_raises number_then_spec_output [] "42"
           [text oss_spec_line; EmptyString] (JInt 42));
    [vm_compute; reflexivity | constructor | vm_compute; reflexivity
    | discriminate].
Defined.

Lemma upload_spec_result_only_after_upload_witness :
  ∃ r,
    outcome (UploadSpecToCache._run (services := storage_down_services)
               (example_context false) amd64) = Ok r ∧
    ∃ spec exit_code out err,
      UploadSpecToCache._get_connector_spec (services := storage_down_services)
        amd64 "OSS" = ([ExecSpec amd64 "OSS"], Ok spec) ∧
      UploadSpecToCache._get_connector_spec (services := storage_down_services)
        amd64 "CLOUD" = ([ExecSpec amd64 "CLOUD"], Ok spec) ∧
      upload_to_gcs (Services := storage_down_services)
        (UploadSpecToCache._get_spec_as_file spec "spec_to_cache.json")
        (UploadSpecToCache.oss_spec_key (example_context false))
        (spec_cache_bucket_name (example_context false))
        (spec_cache_gcs_credentials_secret (example_context false))
        = (exit_code, out, err) ∧
      uploaded_keys
        (log_of (UploadSpecToCache._run (services := storage_down_services)
                   (example_context false) amd64))
        = [UploadSpecToCache.oss_spec_key (example_context false)] ∧
      r = if bool_decide (exit_code = 0%Z)
          then {| step := UploadSpecToCache.self; status := SUCCESS;
                  stdout := None; stderr := None;
                  output_artifact := NoArtifact |}
          else {| step := UploadSpecToCache.self; status := FAILURE;
                  stdout := Some out; stderr := Some err;
                  output_artifact := NoArtifact |}.
Proof.
  eexists. split; [vm_compute; reflexivity|].
  apply (upload_spec_result_only_after_upload (services := storage_down_services)
           (example_context false) amd64).
  vm_compute; reflexivity.
Defined.

Lemma upload_spec_follows_exit_code_witness :
  ∃ spec,
    outcome (UploadSpecToCache._get_connector_spec
               (services := storage_down_services) amd64 "OSS") = Ok spec ∧
    outcome (UploadSpecToCache._get_connector_spec
               (services := storage_down_services) amd64 "CLOUD") = Ok spec ∧
    outcome (UploadSpecToCache._run (services := storage_down_services)
               (example_context false) amd64)
    = Ok {| step := UploadSpecToCache.self; status := FAILURE;
            stdout := Some EmptyString;
            stderr := Some "AccessDenied: specs/airbyte/source-faker/0.1.4/spec.json";
            output_artifact := NoArtifact |}.
Proof.
  eexists. split; [vm_compute; reflexivity|]. split; [vm_compute; reflexivity|].
  eapply (λ Hoss Hcloud Hupload,
            proj2 (upload_spec_follows_exit_code
                     (services := storage_down_services) (example_context false)
                     amd64 _ 1%Z EmptyString
                     "AccessDenied: specs/airbyte/source-faker/0.1.4/spec.json"
                     Hoss Hcloud Hupload));
    first [vm_compute; reflexivity | done].
Defined.

Lemma upload_spec_oss_extraction_error_witness :
  outcome (UploadSpecToCache._get_connector_spec (services := no_spec_services)
             amd64 "OSS")
    = Raise (InvalidSpecOutputError
               "Could not parse the output of the spec command.") ∧
  UploadSpecToCache._run (services := no_spec_services)
    (example_context false) amd64
  = ([ExecSpec amd64 "OSS"],
     Raise (InvalidSpecOutputError
              "Could not parse the output of the spec command.")).
Proof.
  split; [vm_compute; reflexivity|].
  apply (upload_spec_oss_extraction_error (services := no_spec_services)
           (example_context false) amd64).
  vm_compute; reflexivity.
Defined.

(** ** The pipeline: which steps run, and what is reported *)

Section run_connector_publish_pipeline_branches.
Context {runner : Runner}.

Local Abbreviation build := (run BuildConnectorForPublishStep).
Local Abbreviation pipeline := run_connector_publish_pipeline.

(** The pipeline, by the points it branches on. *)
Ltac pipeline_cases :=
  unfold built_to_publish, already_published, ready_to_publish, gating_results,
    run_connector_publish_pipeline, do_run_steps, do_run, call;
  simpl;
  destruct (item_last (run_steps steps_before_ready_to_publish []))
    as [last_result|gating_error] eqn:Hlast; simpl;
  [destruct (status last_result) eqn:Hgate; simpl;
   [destruct (status (run BuildConnectorForPublishStep)) eqn:Hbuild; simpl;
    [destruct (artifact_item0
                 (output_artifact (run BuildConnectorForPublishStep)))
       as [primary|artifact_error] eqn:Hprimary; simpl
    | | ]
   | | ]
  | ].

Ltac members :=
  repeat match goal with
         | H : _ ∈ _ :: _ |- _ => apply elem_of_cons in H as [H|H]
         | H : _ ∈ [] |- _ => by apply elem_of_nil in H
         | H : _ ∈ _ ++ _ |- _ => apply elem_of_app in H as [H|H]
         | H : ∃ _, _ |- _ => destruct H as [? H]
         | H : _ ∧ _ |- _ => destruct H as [? H]
         | H : _ ∨ _ |- _ => destruct H as [H|H]
         | H : Ok _ = Ok _ |- _ => injection H as H; subst
         | _ => congruence
         end.

(** X22. The build is run exactly when the last result of the steps before
    publishing is SUCCESS: the results before the last are not looked at. *)
Theorem pipeline_builds_iff_ready :
  BuildConnectorForPublishStep ∈ dispatched (log_of pipeline)
  ↔ ready_to_publish.
Proof.
  pipeline_cases; (split; [intros Hin; members; eauto|intros Hready]);
    try (do 2 apply list_elem_of_further; apply list_elem_of_here);
    members.
Qed.

(** X23. The upload of the spec and the push are run exactly when the
    version was to be built, the build succeeded and has a first artifact:
    never after a failed or skipped check, never after a failed build. *)
Theorem pipeline_publishes_iff_built :
  (UploadSpecToCacheStep ∈ dispatched (log_of pipeline) ↔ built_to_publish) ∧
  (PushConnectorImageToRegistryStep ∈ dispatched (log_of pipeline)
   ↔ built_to_publish).
Proof.
  pipeline_cases; (split; (split; [intros Hin; members; eauto 10|intros Hbuilt]));
    try (do 3 apply list_elem_of_further; apply list_elem_of_here);
    try (do 4 apply list_elem_of_further; apply list_elem_of_here);
    members.
Qed.

(** X24. The upload of the metadata is run in two cases only: when the
    version is published already, and when it was built and is being
    published. It is not run after a failed check nor after a failed
    build. *)
Theorem pipeline_uploads_metadata_iff :
  MetadataUploadStep ∈ dispatched (log_of pipeline)
  ↔ already_published ∨ built_to_publish.
Proof.
  pipeline_cases; (split; [intros Hin; members; eauto 10|intros Hcase]);
    try (do 5 apply list_elem_of_further; apply list_elem_of_here);
    try (do 2 apply list_elem_of_further; apply list_elem_of_here);
    members.
Qed.

(** X26. A report that the pipeline returns is named PUBLISH RESULTS and
    keeps the results of the steps before publishing, in one of four shapes:
    these results and the result of the upload of the metadata, when the
    version is published already; these results alone, when the last of
    them is FAILURE; these results and the result of the build, when the
    build did not succeed; and otherwise what [run_steps] returns for the
    three publish steps, given these results and the result of the build. *)
Theorem pipeline_report rep :
  outcome pipeline = Ok rep →
  name rep = "PUBLISH RESULTS" ∧
  ((already_published ∧
    steps_results rep = gating_results ++ [run MetadataUploadStep]) ∨
   ((∃ last_result, item_last gating_results = Ok last_result ∧
                    status last_result = FAILURE) ∧
    steps_results rep = gating_results) ∨
   (ready_to_publish ∧ status build ≠ SUCCESS ∧
    steps_results rep = gating_results ++ [build]) ∨
   (∃ primary,
      ready_to_publish ∧ status build = SUCCESS ∧
      artifact_item0 (output_artifact build) = Ok primary ∧
      steps_results rep
      = run_steps [(UploadSpecToCacheStep, [primary]);
                   (PushConnectorImageToRegistryStep, [output_artifact build]);
                   (MetadataUploadStep, [])]
          (gating_results ++ [build]))).
Proof.
  pipeline_cases; intros [= <-]; (split; [done|]); simpl.
  - do 3 right. exists primary. eauto 10.
  - right. right. left. eauto 10.
  - right. right. left. eauto 10.
  - right. left. eauto.
  - left. eauto.
Qed.

(** X27. When the version is to be built and the build succeeds with the
    artifacts [primary :: others], the pipeline makes three calls: the steps
    before publishing, the build, and [run_steps] on the upload of the spec
    with [primary] alone, the push with the whole list and the upload of the
    metadata, given the results so far; its report is what this last call
    returns. *)
Theorem pipeline_hands_artifacts_to_publish_steps last_result primary others :
  item_last gating_results = Ok last_result →
  status last_result = SUCCESS →
  status build = SUCCESS →
  output_artifact build = ListArtifact (primary :: others) →
  pipeline
  = ([RunSteps steps_before_ready_to_publish [];
      Run BuildConnectorForPublishStep;
      RunSteps [(UploadSpecToCacheStep, [primary]);
                (PushConnectorImageToRegistryStep,
                 [ListArtifact (primary :: others)]);
                (MetadataUploadStep, [])]
        (gating_results ++ [build])],
     Ok (report (run_steps [(UploadSpecToCacheStep, [primary]);
                            (PushConnectorImageToRegistryStep,
                             [ListArtifact (primary :: others)]);
                            (MetadataUploadStep, [])]
                   (gating_results ++ [build])))).
Proof.
  unfold gating_results. intros Hlast Hgate Hbuild Hartifact.
  unfold run_connector_publish_pipeline, do_run_steps, do_run, call. simpl.
  rewrite Hlast. simpl. rewrite Hgate. simpl. rewrite Hbuild. simpl.
  by rewrite Hartifact.
Qed.
End run_connector_publish_pipeline_branches.

Lemma pipeline_report_witness :
  outcome (run_connector_publish_pipeline
             (runner := build_runner FAILURE NoArtifact))
  = Ok (report [build_result FAILURE NoArtifact MetadataValidationStep;
                build_result FAILURE NoArtifact CheckConnectorImageDoesNotExistStep;
                build_result FAILURE NoArtifact BuildConnectorForPublishStep]) ∧
  name (report [build_result FAILURE NoArtifact MetadataValidationStep;
                build_result FAILURE NoArtifact CheckConnectorImageDoesNotExistStep;
                build_result FAILURE NoArtifact BuildConnectorForPublishStep])
  = "PUBLISH RESULTS".
Proof.
  split; [reflexivity|].
  apply (pipeline_report (runner := build_runner FAILURE NoArtifact)
           (report [build_result FAILURE NoArtifact MetadataValidationStep;
                    build_result FAILURE NoArtifact
                      CheckConnectorImageDoesNotExistStep;
                    build_result FAILURE NoArtifact
                      BuildConnectorForPublishStep])).
  reflexivity.
Defined.

Lemma pipeline_hands_artifacts_to_publish_steps_witness :
  item_last (gating_results
               (runner := build_runner SUCCESS
                            (ListArtifact [ContainerArtifact amd64;
                                           ContainerArtifact arm64])))
    = Ok (build_result SUCCESS
            (ListArtifact [ContainerArtifact amd64; ContainerArtifact arm64])
            CheckConnectorImageDoesNotExistStep) ∧
  log_of (run_connector_publish_pipeline
            (runner := build_runner SUCCESS
                         (ListArtifact [ContainerArtifact amd64;
                                        ContainerArtifact arm64])))
  = [RunSteps steps_before_ready_to_publish [];
     Run BuildConnectorForPublishStep;
     RunSteps [(UploadSpecToCacheStep, [ContainerArtifact amd64]);
               (PushConnectorImageToRegistryStep,
                [ListArtifact [ContainerArtifact amd64; ContainerArtifact arm64]]);
               (MetadataUploadStep, [])]
       (build_result SUCCESS
          (ListArtifact [ContainerArtifact amd64; ContainerArtifact arm64])
        <$> [MetadataValidationStep; CheckConnectorImageDoesNotExistStep;
             BuildConnectorForPublishStep])].
Proof.
  split; [reflexivity|].
  rewrite (pipeline_hands_artifacts_to_publish_steps
             (runner := build_runner SUCCESS
                          (ListArtifact [ContainerArtifact amd64;
                                         ContainerArtifact arm64]))
             (build_result SUCCESS
                (ListArtifact [ContainerArtifact amd64; ContainerArtifact arm64])
                CheckConnectorImageDoesNotExistStep)
             (ContainerArtifact amd64) [ContainerArtifact arm64]
             eq_refl eq_refl eq_refl eq_refl).
  reflexivity.
Defined.
